(** * pbuild: the cross-compilation driver [build.py]

    A shallow embedding of [build.py] and the properties of its three
    build pipelines, of the orchestrator and of the clean operation.

    The script talks to the outside world through [glob.glob],
    [subprocess.run], [os.makedirs], [os.path.exists], [shutil.rmtree],
    [os.chdir] and [print].  The first group is kept abstract (class
    [Host]); printing and the commands handed to [subprocess.run] are
    recorded in the state, so that statements about "what was run" and
    "what was printed" are statements about the final state. *)

From Stdlib Require Import String Ascii List ZArith Bool Lia DecimalString.
Import ListNotations.
Local Open Scope string_scope.
Local Open Scope list_scope.

(** * Part I: the script and its host *)

(** ** Python string operations used by the script *)

Module Py.

(** [s.endswith(suffix)] *)
Definition endswith (s suffix : string) : bool :=
  let n := String.length s in
  let m := String.length suffix in
  (m <=? n)%nat && String.eqb (substring (n - m) m s) suffix.

(** [sep.join(items)] *)
Definition join (sep : string) (items : list string) : string :=
  String.concat sep items.

(** truth value of a [str]: the empty string is falsy *)
Definition truthy (s : string) : bool :=
  match s with
  | EmptyString => false
  | String _ _ => true
  end.

(** [str(n)] for an [int] *)
Definition str_of_int (n : Z) : string :=
  NilZero.string_of_int (Z.to_int n).

End Py.

(** ** [os.path] on POSIX *)

Module os_path.

Definition sep : ascii := "/"%char.

(** [posixpath.basename]: the part after the last slash.  [after] is the
    text that follows the last slash seen so far. *)
Fixpoint basename_from (after p : string) : string :=
  match p with
  | EmptyString => after
  | String c rest =>
      if Ascii.eqb c sep then basename_from rest rest
      else basename_from after rest
  end.

Definition basename (p : string) : string := basename_from p p.

Definition startswith_sep (p : string) : bool :=
  match p with
  | String c _ => Ascii.eqb c sep
  | EmptyString => false
  end.

(** [posixpath.join(a, b)] *)
Definition join (a b : string) : string :=
  if startswith_sep b then b
  else if negb (Py.truthy a) || Py.endswith a "/" then a ++ b
  else a ++ "/" ++ b.

(** [posixpath.join(a, b, c)] *)
Definition join3 (a b c : string) : string := join (join a b) c.

End os_path.

(** ** Module-level constants of [build.py] *)

Definition FNAME_OUT : string := "main".
Definition SRC_DIR : string := "src".
Definition BUILD_DIR : string := "build".
Definition MACOS_BUILD_DIR : string := os_path.join BUILD_DIR "macos".
Definition WINDOWS_BUILD_DIR : string := os_path.join BUILD_DIR "windows".
Definition LINUX_BUILD_DIR : string := os_path.join BUILD_DIR "linux".

Definition MACOS_CXX : string := "clang++".
Definition MACOS_C : string := "clang".
Definition MACOS_ARCH_FLAGS : list string := ["-arch"; "arm64"; "-arch"; "x86_64"].

Definition WINDOWS_TOOLCHAIN_PREFIX : string := "/opt/homebrew/bin/x86_64-w64-mingw32".
Definition WINDOWS_CXX : string := WINDOWS_TOOLCHAIN_PREFIX ++ "-g++".
Definition WINDOWS_C : string := WINDOWS_TOOLCHAIN_PREFIX ++ "-gcc".

Definition LINUX_TOOLCHAIN_PREFIX : string := "/opt/homebrew/bin".
Definition LINUX_CXX : string := LINUX_TOOLCHAIN_PREFIX ++ "/x86_64-unknown-linux-gnu-g++".
Definition LINUX_C : string := LINUX_TOOLCHAIN_PREFIX ++ "/x86_64-unknown-linux-gnu-gcc".

Definition COMMON_CXX_FLAGS : list string := ["-std=c++17"; "-Wall"; "-Wextra"].
Definition COMMON_C_FLAGS : list string := ["-std=c11"; "-Wall"; "-Wextra"].

(** ** The outside world *)

(** What [subprocess.run(command, check=True, capture_output=True,
    text=True)] can do: complete with exit status 0, raise
    [CalledProcessError] for any other exit status, or raise
    [FileNotFoundError] when the executable does not exist.  These are the
    results [run_command] handles; any other exception of the call (a
    permission error, output that is not valid text) is caught nowhere in
    the script and is outside the model. *)
Inductive proc_result : Type :=
| Completed (out err : string)
| CalledProcessError (returncode : Z) (out err : string)
| FileNotFoundError.

Definition succeeded (r : proc_result) : bool :=
  match r with
  | Completed _ _ => true
  | _ => false
  end.

(** The library calls of the script, over an abstract world [W] (file
    system, installed toolchains, current directory).  Nothing is assumed of
    them here: [glob_glob] may return any list of paths and [subprocess_run]
    any result.  The calls on the file system are total: a failure of
    [os.makedirs], [shutil.rmtree] or [os.chdir] themselves (permissions, a
    file in the place of a directory) is outside the model. *)
Class Host (W : Type) : Type := {
  (** [glob.glob(pattern, recursive=True)] *)
  glob_glob : string -> W -> list string;
  (** [subprocess.run(command, cwd=cwd, ...)]: the result and the world the
      child process leaves behind *)
  subprocess_run : list string -> option string -> W -> proc_result * W;
  (** [os.makedirs(path, exist_ok=True)] *)
  os_makedirs : string -> W -> W;
  (** [os.path.exists(path)] *)
  os_path_exists : string -> W -> bool;
  (** [shutil.rmtree(path)] *)
  shutil_rmtree : string -> W -> W;
  (** [os.path.dirname(os.path.abspath(__file__))] *)
  script_dir : W -> string;
  (** [os.chdir(path)] *)
  os_chdir : string -> W -> W;
  (** [os.getcwd()] *)
  os_getcwd : W -> string
}.

(** ** The monad of the script: state, and [sys.exit] *)

Record state (W : Type) : Type := mkState {
  world : W;
  (** one entry per [print] call, oldest first *)
  stdout : list string;
  (** one entry per [subprocess.run] call, oldest first *)
  trace : list (list string * proc_result)
}.
Arguments mkState {W} _ _ _.
Arguments world {W} _.
Arguments stdout {W} _.
Arguments trace {W} _.

Inductive outcome (A : Type) : Type :=
| Returned (a : A)
| Exited (code : Z).
Arguments Returned {A} _.
Arguments Exited {A} _.

Definition M (W A : Type) : Type := state W -> outcome A * state W.

Definition ret {W A} (a : A) : M W A := fun s => (Returned a, s).

Definition bind {W A B} (m : M W A) (k : A -> M W B) : M W B :=
  fun s =>
    match m s with
    | (Returned a, s') => k a s'
    | (Exited c, s') => (Exited c, s')
    end.

Declare Scope script_scope.
Delimit Scope script_scope with script.
Notation "x <- m ;; k" := (bind m (fun x => k))
  (at level 61, m at next level, right associativity) : script_scope.
Notation "m ;; k" := (bind m (fun _ => k))
  (at level 61, right associativity) : script_scope.
Local Open Scope script_scope.

Definition nl : string := String (ascii_of_nat 10) EmptyString.

Section Script.

Context {W : Type} `{Host W}.

Definition print (line : string) : M W unit :=
  fun s => (Returned tt, mkState (world s) (stdout s ++ [line]) (trace s)).

Definition sys_exit {A} (code : Z) : M W A :=
  fun s => (Exited code, s).

(** a library call that only changes the world *)
Definition effect (f : W -> W) : M W unit :=
  fun s => (Returned tt, mkState (f (world s)) (stdout s) (trace s)).

(** a library call that only reads the world *)
Definition observe {A} (f : W -> A) : M W A :=
  fun s => (Returned (f (world s)), s).

(** [subprocess.run]: the call is recorded with its result *)
Definition subprocess (command : list string) (cwd : option string) : M W proc_result :=
  fun s =>
    let (r, w') := subprocess_run command cwd (world s) in
    (Returned r, mkState w' (stdout s) (trace s ++ [(command, r)])).

(** ** [run_command]

    [command[0]] is written [hd "" command]: every call site passes a list
    that starts with the compiler. *)

Definition run_command (command : list string) (cwd : option string) : M W bool :=
  print ("Executing: " ++ Py.join " " command) ;;
  result <- subprocess command cwd ;;
  match result with
  | Completed out err =>
      (if Py.truthy out then print ("STDOUT:" ++ nl ++ " " ++ out) else ret tt) ;;
      (if Py.truthy err then print ("STDERR:" ++ nl ++ " " ++ err) else ret tt) ;;
      ret true
  | CalledProcessError returncode out err =>
      print ("ERROR: Command failed with exit code " ++ Py.str_of_int returncode) ;;
      print ("STDOUT:" ++ nl ++ " " ++ out) ;;
      print ("STDERR:" ++ nl ++ " " ++ err) ;;
      sys_exit 1
  | FileNotFoundError =>
      print ("ERROR: Command '" ++ hd "" command ++ "' not found. "
             ++ "Please ensure it's installed and in your PATH, or correct the toolchain prefix.") ;;
      sys_exit 1
  end.

(** ** [get_source_files] and [ensure_dir] *)

Definition get_source_files (base_dir : string) : M W (list string) :=
  cpp_files <- observe (glob_glob (os_path.join3 base_dir "**" "*.cpp")) ;;
  c_files <- observe (glob_glob (os_path.join3 base_dir "**" "*.c")) ;;
  ret (cpp_files ++ c_files).

Definition ensure_dir (path : string) : M W unit :=
  effect (os_makedirs path).

(** ** The per-platform pipelines *)

(** How the [for src_file in source_files] loop of a pipeline ends: it runs
    to the end with the list [object_files], or its body executes the
    [return] of the enclosing function. *)
Inductive loop_end : Type :=
| LoopFinished (object_files : list string)
| FunctionReturned.

Fixpoint build_macos_loop (source_files object_files : list string) : M W loop_end :=
  match source_files with
  | [] => ret (LoopFinished object_files)
  | src_file :: rest =>
      let base_name := os_path.basename src_file in
      let obj_file := os_path.join MACOS_BUILD_DIR (base_name ++ ".o") in
      let object_files := object_files ++ [obj_file] in
      let compile (compiler : string) (flags : list string) : M W loop_end :=
        let compile_command :=
          [compiler] ++ flags ++ MACOS_ARCH_FLAGS ++ ["-c"; src_file; "-o"; obj_file] in
        let compile_command := filter Py.truthy compile_command in
        ok <- run_command compile_command None ;;
        if negb ok then
          print ("Failed to compile " ++ src_file) ;;
          ret FunctionReturned
        else build_macos_loop rest object_files in
      if Py.endswith src_file ".cpp" then compile MACOS_CXX COMMON_CXX_FLAGS
      else if Py.endswith src_file ".c" then compile MACOS_C COMMON_C_FLAGS
      else
        print ("Skipping unknown file type: " ++ src_file) ;;
        build_macos_loop rest object_files
  end.

Definition build_macos : M W unit :=
  print (nl ++ "--- Building for macOS (Universal Binary) ---") ;;
  ensure_dir MACOS_BUILD_DIR ;;
  source_files <- get_source_files SRC_DIR ;;
  match source_files with
  | [] => print ("No source files found in " ++ SRC_DIR ++ ".")
  | _ :: _ =>
      r <- build_macos_loop source_files [] ;;
      match r with
      | FunctionReturned => ret tt
      | LoopFinished object_files =>
          let output_executable := os_path.join MACOS_BUILD_DIR FNAME_OUT in
          let link_command :=
            [MACOS_CXX] ++ object_files ++ MACOS_ARCH_FLAGS ++ ["-o"; output_executable] in
          let link_command := filter Py.truthy link_command in
          ok <- run_command link_command None ;;
          if ok then print ("Successfully built macOS executable: " ++ output_executable)
          else ret tt
      end
  end.

Fixpoint build_windows_loop (source_files object_files : list string) : M W loop_end :=
  match source_files with
  | [] => ret (LoopFinished object_files)
  | src_file :: rest =>
      let base_name := os_path.basename src_file in
      let obj_file := os_path.join WINDOWS_BUILD_DIR (base_name ++ ".o") in
      let object_files := object_files ++ [obj_file] in
      let compile (compiler : string) (flags : list string) : M W loop_end :=
        let compile_command :=
          [compiler] ++ flags ++ ["-c"; src_file; "-o"; obj_file] in
        let compile_command := filter Py.truthy compile_command in
        ok <- run_command compile_command None ;;
        if negb ok then
          print ("Failed to compile " ++ src_file) ;;
          ret FunctionReturned
        else build_windows_loop rest object_files in
      if Py.endswith src_file ".cpp" then compile WINDOWS_CXX COMMON_CXX_FLAGS
      else if Py.endswith src_file ".c" then compile WINDOWS_C COMMON_C_FLAGS
      else
        print ("Skipping unknown file type: " ++ src_file) ;;
        build_windows_loop rest object_files
  end.

Definition build_windows : M W unit :=
  print (nl ++ "--- Building for Windows (x86_64) ---") ;;
  ensure_dir WINDOWS_BUILD_DIR ;;
  source_files <- get_source_files SRC_DIR ;;
  match source_files with
  | [] => print ("No source files found in " ++ SRC_DIR ++ ".")
  | _ :: _ =>
      r <- build_windows_loop source_files [] ;;
      match r with
      | FunctionReturned => ret tt
      | LoopFinished object_files =>
          let output_executable := os_path.join WINDOWS_BUILD_DIR (FNAME_OUT ++ ".exe") in
          let link_command :=
            [WINDOWS_CXX] ++ object_files
              ++ ["-static-libstdc++"; "-static-libgcc"; "-o"; output_executable] in
          let link_command := filter Py.truthy link_command in
          ok <- run_command link_command None ;;
          if ok then print ("Successfully built Windows executable: " ++ output_executable)
          else ret tt
      end
  end.

Fixpoint build_linux_loop (source_files object_files : list string) : M W loop_end :=
  match source_files with
  | [] => ret (LoopFinished object_files)
  | src_file :: rest =>
      let base_name := os_path.basename src_file in
      let obj_file := os_path.join LINUX_BUILD_DIR (base_name ++ ".o") in
      let object_files := object_files ++ [obj_file] in
      let compile (compiler : string) (flags : list string) : M W loop_end :=
        let compile_command :=
          [compiler] ++ flags ++ ["-c"; src_file; "-o"; obj_file] in
        let compile_command := filter Py.truthy compile_command in
        ok <- run_command compile_command None ;;
        if negb ok then
          print ("Failed to compile " ++ src_file) ;;
          ret FunctionReturned
        else build_linux_loop rest object_files in
      if Py.endswith src_file ".cpp" then compile LINUX_CXX COMMON_CXX_FLAGS
      else if Py.endswith src_file ".c" then compile LINUX_C COMMON_C_FLAGS
      else
        print ("Skipping unknown file type: " ++ src_file) ;;
        build_linux_loop rest object_files
  end.

Definition build_linux : M W unit :=
  print (nl ++ "--- Building for Linux (x86_64) ---") ;;
  ensure_dir LINUX_BUILD_DIR ;;
  source_files <- get_source_files SRC_DIR ;;
  match source_files with
  | [] => print ("No source files found in " ++ SRC_DIR ++ ".")
  | _ :: _ =>
      r <- build_linux_loop source_files [] ;;
      match r with
      | FunctionReturned => ret tt
      | LoopFinished object_files =>
          let output_executable := os_path.join LINUX_BUILD_DIR FNAME_OUT in
          let link_command :=
            [LINUX_CXX] ++ object_files ++ COMMON_CXX_FLAGS ++ ["-o"; output_executable] in
          let link_command := filter Py.truthy link_command in
          ok <- run_command link_command None ;;
          if ok then print ("Successfully built Linux executable: " ++ output_executable)
          else ret tt
      end
  end.

(** ** Orchestrator, clean, and the command line *)

Definition build_all : M W unit :=
  print "--- Starting full project build ---" ;;
  ensure_dir BUILD_DIR ;;
  build_macos ;;
  build_windows ;;
  build_linux ;;
  print (nl ++ "--- All builds completed! ---") ;;
  print ("Executables can be found in: " ++ BUILD_DIR ++ "/").

Definition clean_all : M W unit :=
  print "--- Cleaning all build artifacts ---" ;;
  present <- observe (os_path_exists BUILD_DIR) ;;
  (if (present : bool) then
     effect (shutil_rmtree BUILD_DIR) ;;
     print ("Removed directory: " ++ BUILD_DIR)
   else print ("Build directory not found: " ++ BUILD_DIR)) ;;
  print "--- All cleaned! ---".

(** the two values [argparse] accepts for the positional argument; with any
    other argument, or with none, [parse_args] ends the process before the
    body of the script starts: [main] models the script from [os.chdir]
    on *)
Inductive cli_command : Type := Build | Clean.

Definition main (command : cli_command) : M W unit :=
  dir <- observe script_dir ;;
  effect (os_chdir dir) ;;
  cwd <- observe os_getcwd ;;
  print ("Working directory: " ++ cwd) ;;
  match command with
  | Build => build_all
  | Clean => clean_all
  end.

(** The exit status of the interpreter: 0 when the script runs to its end,
    the argument of [sys.exit] otherwise. *)
Definition exit_code {A} (r : outcome A) : Z :=
  match r with
  | Returned _ => 0%Z
  | Exited code => code
  end.

Definition initial (w : W) : state W := mkState w [] [].

Definition run_script (command : cli_command) (w : W) : Z * state W :=
  let (r, s) := main command (initial w) in (exit_code r, s).

End Script.

(** ** The three targets, and the commands a pipeline is meant to run *)

Inductive target : Type := MacOS | Windows | Linux.

Section Plan.

Context {W : Type} `{Host W}.

Definition build_for (t : target) : M W unit :=
  match t with
  | MacOS => build_macos
  | Windows => build_windows
  | Linux => build_linux
  end.

Definition loop_for (t : target) : list string -> list string -> M W loop_end :=
  match t with
  | MacOS => build_macos_loop
  | Windows => build_windows_loop
  | Linux => build_linux_loop
  end.

End Plan.

Definition build_dir_of (t : target) : string :=
  match t with
  | MacOS => MACOS_BUILD_DIR
  | Windows => WINDOWS_BUILD_DIR
  | Linux => LINUX_BUILD_DIR
  end.

Definition cxx_of (t : target) : string :=
  match t with
  | MacOS => MACOS_CXX
  | Windows => WINDOWS_CXX
  | Linux => LINUX_CXX
  end.

Definition cc_of (t : target) : string :=
  match t with
  | MacOS => MACOS_C
  | Windows => WINDOWS_C
  | Linux => LINUX_C
  end.

(** flags added to every compile command of the target *)
Definition compile_arch_flags (t : target) : list string :=
  match t with
  | MacOS => MACOS_ARCH_FLAGS
  | Windows | Linux => []
  end.

(** flags that follow the object files in the link command of the target *)
Definition link_flags (t : target) : list string :=
  match t with
  | MacOS => MACOS_ARCH_FLAGS
  | Windows => ["-static-libstdc++"; "-static-libgcc"]
  | Linux => COMMON_CXX_FLAGS
  end.

Definition executable_of (t : target) : string :=
  match t with
  | MacOS | Linux => build_dir_of t ++ "/" ++ FNAME_OUT
  | Windows => build_dir_of t ++ "/" ++ FNAME_OUT ++ ".exe"
  end.

Definition banner (t : target) : string :=
  match t with
  | MacOS => nl ++ "--- Building for macOS (Universal Binary) ---"
  | Windows => nl ++ "--- Building for Windows (x86_64) ---"
  | Linux => nl ++ "--- Building for Linux (x86_64) ---"
  end.

(** the object file of a source file: build directory, a slash, the
    basename, [.o] *)
Definition obj_path (t : target) (src_file : string) : string :=
  build_dir_of t ++ "/" ++ os_path.basename src_file ++ ".o".

(** the files the loop compiles; any other file is skipped *)
Definition recognised (src_file : string) : bool :=
  Py.endswith src_file ".cpp" || Py.endswith src_file ".c".

Definition compile_command (t : target) (src_file : string) : list string :=
  if Py.endswith src_file ".cpp" then
    [cxx_of t] ++ COMMON_CXX_FLAGS ++ compile_arch_flags t
      ++ ["-c"; src_file; "-o"; obj_path t src_file]
  else
    [cc_of t] ++ COMMON_C_FLAGS ++ compile_arch_flags t
      ++ ["-c"; src_file; "-o"; obj_path t src_file].

Definition link_command (t : target) (object_files : list string) : list string :=
  [cxx_of t] ++ object_files ++ link_flags t ++ ["-o"; executable_of t].

(** the commands of one pipeline, in order, for the discovered files *)
Definition plan (t : target) (source_files : list string) : list (list string) :=
  map (compile_command t) (filter recognised source_files)
    ++ [link_command t (map (obj_path t) source_files)].

Definition entry : Type := list string * proc_result.

Definition ok_entry (e : entry) : Prop := succeeded (snd e) = true.

(** [ran planned new finished]: the commands [planned] were run one after
    the other and recorded as [new]; either all of them succeeded
    ([finished]), or the run stopped at the first one that failed. *)
Definition ran (planned : list (list string)) (new : list entry) (finished : bool) : Prop :=
  if finished then map fst new = planned /\ Forall ok_entry new
  else exists done cmd res rest,
      new = done ++ [(cmd, res)] /\ Forall ok_entry done /\ succeeded res = false
      /\ planned = map fst done ++ cmd :: rest.

(** a line that is not the message of a failure branch *)
Definition not_failure_line (line : string) : Prop :=
  String.prefix "Failed to compile" line = false.

(** ** What the statements below speak of *)

(** the last character of a string, if any *)
Fixpoint last_char (s : string) : option ascii :=
  match s with
  | EmptyString => None
  | String c EmptyString => Some c
  | String _ rest => last_char rest
  end.

(** whether a string contains a slash *)
Fixpoint has_sep (s : string) : bool :=
  match s with
  | EmptyString => false
  | String c rest => Ascii.eqb c os_path.sep || has_sep rest
  end.

(** [under p q]: the path [q] is [p] or lies below it *)
Definition under (p q : string) : bool :=
  String.eqb q p || String.prefix (p ++ "/") q.

(** the object files of the compiled files are pairwise distinct: as many
    object files as files compiled *)
Definition one_object_file_per_source_file (t : target) (srcs : list string) : Prop :=
  NoDup (map (obj_path t) (filter recognised srcs)).


(** the object files written by the compile commands of a record *)
Definition compiled_objects (tr : list entry) : list string :=
  map (fun e => last (fst e) "")
      (filter (fun e => existsb (String.eqb "-c") (fst e) && succeeded (snd e)) tr).

Section Notions.

Context {W : Type} `{Host W}.

(** what [get_source_files(SRC_DIR)] returns in world [w] *)
Definition cpp_matches (w : W) : list string := glob_glob "src/**/*.cpp" w.
Definition c_matches (w : W) : list string := glob_glob "src/**/*.c" w.
Definition discovered (w : W) : list string := cpp_matches w ++ c_matches w.

Definition success_line (t : target) : string :=
  match t with
  | MacOS => "Successfully built macOS executable: " ++ executable_of MacOS
  | Windows => "Successfully built Windows executable: " ++ executable_of Windows
  | Linux => "Successfully built Linux executable: " ++ executable_of Linux
  end.

Definition no_sources_line : string := "No source files found in src.".

(** the state in which the pipeline of [t], started in [s], discovers its
    source files *)
Definition at_discovery (t : target) (s : state W) : state W :=
  mkState (os_makedirs (build_dir_of t) (world s)) (stdout s ++ [banner t]) (trace s).

(** how the loop of target [t] ends from state [s]: it never takes the
    [return] of a failure branch, and it runs the compile commands of the
    recognised files in order, up to the first failure *)
Definition loop_result (t : target) (srcs objs : list string) (s : state W) : Prop :=
  exists new lines,
    trace (snd (loop_for t srcs objs s)) = trace s ++ new /\
    stdout (snd (loop_for t srcs objs s)) = stdout s ++ lines /\
    Forall not_failure_line lines /\
    ((fst (loop_for t srcs objs s) = Returned (LoopFinished (objs ++ map (obj_path t) srcs))
      /\ ran (map (compile_command t) (filter recognised srcs)) new true)
     \/ (fst (loop_for t srcs objs s) = Exited 1
         /\ ran (map (compile_command t) (filter recognised srcs)) new false)).

(** what [glob.glob] promises for the two patterns of [get_source_files]
    where it compares names as they are written (posixpath): a match of
    [*.cpp] ends in [.cpp], a match of [*.c] ends in [.c] *)
Definition glob_matches_its_pattern (w : W) : Prop :=
  Forall (fun f => Py.endswith f ".cpp" = true) (cpp_matches w)
  /\ Forall (fun f => Py.endswith f ".c" = true) (c_matches w).

(** [orderly m]: [m] only adds to the record of commands; it returns when
    every command it ran succeeded, and it leaves with [sys.exit(1)] at a
    command that failed *)
Definition orderly {A : Type} (m : M W A) : Prop :=
  forall s, exists new,
    trace (snd (m s)) = trace s ++ new /\
    (((exists a, fst (m s) = Returned a) /\ Forall ok_entry new)
     \/ (fst (m s) = Exited 1 /\ exists e, In e new /\ succeeded (snd e) = false)).

(** what [shutil.rmtree] promises: nothing at or below the removed path
    exists afterwards *)
Definition rmtree_removes_tree : Prop :=
  forall (p q : string) (w : W),
    under p q = true -> os_path_exists q (shutil_rmtree p w) = false.

End Notions.

(** ** The output of the script

    What [run_command] prints for one call, and the lines the script prints
    itself. *)

(** the line printed before the command is started *)
Definition announce (command : list string) : string :=
  "Executing: " ++ Py.join " " command.

(** the lines printed once the result of the command is known *)
Definition report (command : list string) (r : proc_result) : list string :=
  match r with
  | Completed out err =>
      (if Py.truthy out then [("STDOUT:" ++ nl ++ " " ++ out)%string] else [])
        ++ (if Py.truthy err then [("STDERR:" ++ nl ++ " " ++ err)%string] else [])
  | CalledProcessError returncode out err =>
      [ ("ERROR: Command failed with exit code " ++ Py.str_of_int returncode)%string;
        ("STDOUT:" ++ nl ++ " " ++ out)%string;
        ("STDERR:" ++ nl ++ " " ++ err)%string ]
  | FileNotFoundError =>
      [ ("ERROR: Command '" ++ hd "" command ++ "' not found. "
           ++ "Please ensure it's installed and in your PATH, or correct the toolchain prefix.")%string ]
  end.

Definition is_announcement (line : string) : bool :=
  String.prefix "Executing: " line.

Definition completed_line : string := nl ++ "--- All builds completed! ---".

Definition skipping_line (src_file : string) : string :=
  "Skipping unknown file type: " ++ src_file.

(** the lines printed by the body of a compile loop *)
Inductive loop_line : string -> Prop :=
| line_skipping (src_file : string) : loop_line (skipping_line src_file)
| line_failed (src_file : string) : loop_line ("Failed to compile " ++ src_file).

(** the lines printed by the pipeline of a target, apart from the output of
    [run_command] *)
Inductive pipeline_line (t : target) : string -> Prop :=
| line_of_loop (line : string) : loop_line line -> pipeline_line t line
| line_banner : pipeline_line t (banner t)
| line_no_sources : pipeline_line t "No source files found in src."
| line_success : pipeline_line t (success_line t).

(** the lines printed by [build_all] and its pipelines *)
Inductive build_line : string -> Prop :=
| line_of_pipeline (t : target) (line : string) : pipeline_line t line -> build_line line
| line_starting : build_line "--- Starting full project build ---"
| line_completed : build_line completed_line
| line_executables : build_line "Executables can be found in: build/".

(** the lines printed by the script *)
Inductive script_line : string -> Prop :=
| line_of_build (line : string) : build_line line -> script_line line
| line_cleaning : script_line "--- Cleaning all build artifacts ---"
| line_removed : script_line "Removed directory: build"
| line_not_found : script_line "Build directory not found: build"
| line_cleaned : script_line "--- All cleaned! ---"
| line_working_directory (cwd : string) : script_line ("Working directory: " ++ cwd).

(** the two compilers of a target *)
Definition toolchain (t : target) : list string := [cxx_of t; cc_of t].

Definition runs_toolchain (t : target) (e : entry) : Prop :=
  In (hd ""%string (fst e)) (toolchain t).

(** a property of the commands recorded and the lines printed that holds of
    nothing and is kept by putting two runs one after the other *)
Definition monoidal (P : list entry -> list string -> Prop) : Prop :=
  P [] [] /\ forall a b c d, P a b -> P c d -> P (a ++ c) (b ++ d).

(** [P] holds of every single call of [run_command] on a command of the
    toolchain of [t], whatever its result *)
Definition holds_of_commands (P : list entry -> list string -> Prop) (t : target) : Prop :=
  forall cmd res, In (hd ""%string cmd) (toolchain t) ->
                  P [(cmd, res)] (announce cmd :: report cmd res).

(** the announcements in the output are those of the commands recorded,
    in the same order *)
Definition announced (new : list entry) (lines : list string) : Prop :=
  filter is_announcement lines = map (fun e => announce (fst e)) new.

(** every command recorded starts with a compiler of target [t] *)
Definition only_toolchain (t : target) (new : list entry) (lines : list string) : Prop :=
  Forall (runs_toolchain t) new.

(** no line printed is [line] *)
Definition never_prints (line : string) (new : list entry) (lines : list string) : Prop :=
  Forall (fun l => l <> line) lines.

Definition is_skipping_line (line : string) : bool :=
  String.prefix "Skipping unknown file type: " line.

(** the discovered files a loop does not compile *)
Definition unrecognised (src_file : string) : bool := negb (recognised src_file).

(** what is recorded and printed falls into a first part with [P] and a
    second part with [Q] *)
Definition in_sequence (P Q : list entry -> list string -> Prop)
           (new : list entry) (lines : list string) : Prop :=
  exists a b c d, new = a ++ c /\ lines = b ++ d /\ P a b /\ Q c d.

Section Tracking.

Context {W : Type} `{Host W}.

(** [build_all] up to its two closing lines *)
Definition pipelines_in_order : M W unit :=
  print "--- Starting full project build ---" ;;
  ensure_dir BUILD_DIR ;;
  build_macos ;;
  build_windows ;;
  build_linux.

(** [main] up to the dispatch on the command *)
Definition enter_script_dir : M W unit :=
  dir <- observe script_dir ;;
  effect (os_chdir dir) ;;
  cwd <- observe os_getcwd ;;
  print ("Working directory: " ++ cwd).

(** [tracks P m]: whatever [m] adds to the record of commands and to the
    output satisfies [P], whether [m] returns or exits *)
Definition tracks (P : list entry -> list string -> Prop) {A : Type} (m : M W A) : Prop :=
  forall s, exists new lines,
    trace (snd (m s)) = trace s ++ new
    /\ stdout (snd (m s)) = stdout s ++ lines
    /\ P new lines.

(** [fail_fast m]: [m] returns when every command it ran succeeded, and
    otherwise exits with status 1 right after the first command that failed *)
Definition fail_fast {A : Type} (m : M W A) : Prop :=
  forall s, exists new,
    trace (snd (m s)) = trace s ++ new
    /\ (((exists a, fst (m s) = Returned a) /\ Forall ok_entry new)
        \/ (fst (m s) = Exited 1
            /\ exists done e, new = done ++ [e] /\ Forall ok_entry done
                              /\ succeeded (snd e) = false)).

End Tracking.

(** ** A small concrete host

    A world is a list of existing paths, what [glob] finds for the two
    patterns, and a table saying what each command does.  A command that
    succeeds creates the file named by its last argument (the argument of
    [-o]). *)

Module Sim.

Record world : Type := mkWorld {
  cpp_found : list string;
  c_found : list string;
  paths : list string;
  tools : list string -> proc_result;
  here : string;
  cwd : string
}.

Definition exists_path (p : string) (w : world) : bool :=
  existsb (String.eqb p) (paths w).

Definition add_path (p : string) (l : list string) : list string :=
  if existsb (String.eqb p) l then l else l ++ [p].

(** the directories [os.makedirs] walks through: every prefix of the path
    that ends before a slash, then the path *)
Fixpoint dirs_from (seen p : string) : list string :=
  match p with
  | EmptyString => if Py.truthy seen then [seen] else []
  | String c rest =>
      if Ascii.eqb c "/"
      then (if Py.truthy seen then [seen] else []) ++ dirs_from (seen ++ "/") rest
      else dirs_from (seen ++ String c "") rest
  end.

Definition with_paths (l : list string) (w : world) : world :=
  mkWorld (cpp_found w) (c_found w) l (tools w) (here w) (cwd w).

Definition makedirs (p : string) (w : world) : world :=
  with_paths (fold_left (fun l d => add_path d l) (dirs_from "" p) (paths w)) w.

Definition rmtree (p : string) (w : world) : world :=
  with_paths (filter (fun q => negb (under p q)) (paths w)) w.

Definition glob (pattern : string) (w : world) : list string :=
  if String.eqb pattern "src/**/*.cpp" then cpp_found w
  else if String.eqb pattern "src/**/*.c" then c_found w
  else [].

Definition run (command : list string) (dir : option string) (w : world)
  : proc_result * world :=
  let r := tools w command in
  (r, if succeeded r then with_paths (add_path (last command "") (paths w)) w else w).

Definition chdir (p : string) (w : world) : world :=
  mkWorld (cpp_found w) (c_found w) (paths w) (tools w) (here w) p.

#[global] Instance host : Host world := {
  glob_glob := glob;
  subprocess_run := run;
  os_makedirs := makedirs;
  os_path_exists := exists_path;
  shutil_rmtree := rmtree;
  script_dir := here;
  os_chdir := chdir;
  os_getcwd := cwd
}.

(** every tool installed and every command succeeding, silently *)
Definition all_succeed (command : list string) : proc_result := Completed "" "".

(** every command succeeds but the compilation of [src_file], which exits
    with status 1 *)
Definition fails_on (src_file : string) (command : list string) : proc_result :=
  if existsb (String.eqb "-c") command && existsb (String.eqb src_file) command
  then CalledProcessError 1 "" "error: expected expression"
  else Completed "" "".

(** the toolchain of [compiler] is not installed *)
Definition missing (compiler : string) (command : list string) : proc_result :=
  if String.eqb (hd "" command) compiler then FileNotFoundError else Completed "" "".

(** a project in [/proj] with the given matches and tools, nothing built *)
Definition project (cpp c : list string) (tools : list string -> proc_result) : world :=
  mkWorld cpp c (["src"] ++ cpp ++ c) tools "/proj" "/".

End Sim.

(** *** Source trees for the concrete host *)

(** two files of the same name in two directories *)
Definition twin_tree : Sim.world :=
  Sim.project ["src/app/util.cpp"; "src/lib/util.cpp"] [] Sim.all_succeed.

Definition a_cpp_b_c_tree : Sim.world :=
  Sim.project ["src/a.cpp"] ["src/b.c"] Sim.all_succeed.

Definition only_c_tree : Sim.world :=
  Sim.project [] ["src/main.c"; "src/util.c"] Sim.all_succeed.

Definition broken_tree : Sim.world :=
  Sim.project ["src/a.cpp"; "src/bad.cpp"; "src/c.cpp"] [] (Sim.fails_on "src/bad.cpp").

Definition empty_tree : Sim.world :=
  Sim.project [] [] Sim.all_succeed.

Definition built_tree : Sim.world :=
  Sim.mkWorld ["src/a.cpp"] [] ["src"; "src/a.cpp"; "build"; "build/macos";
                                "build/macos/a.cpp.o"; "build/macos/main"; "builder.txt"]
              Sim.all_succeed "/proj" "/".

(** * Part II: facts *)

(** ** The model at small inputs *)

Example basename_nested : os_path.basename "src/lib/a.cpp" = "a.cpp".
Proof. reflexivity. Qed.

Example macos_dir : MACOS_BUILD_DIR = "build/macos".
Proof. reflexivity. Qed.

Example endswith_cpp : Py.endswith "src/a.cpp" ".cpp" = true /\ Py.endswith "src/a.cpp" ".c" = false.
Proof. split; reflexivity. Qed.

Example str_of_minus_nine : Py.str_of_int (-9) = "-9".
Proof. reflexivity. Qed.

Example sim_makedirs :
  Sim.paths (Sim.makedirs "build/macos" (Sim.project [] [] Sim.all_succeed))
  = ["src"; "build"; "build/macos"].
Proof. reflexivity. Qed.

(** the scenario of the specification: [a.cpp] and [b.c] *)
Example scenario_a_cpp_b_c :
  let w := Sim.project ["src/a.cpp"] ["src/b.c"] Sim.all_succeed in
  fst (run_script Build w) = 0%Z /\
  map fst (trace (snd (run_script Build w))) =
    [ ["clang++"; "-std=c++17"; "-Wall"; "-Wextra"; "-arch"; "arm64"; "-arch"; "x86_64";
       "-c"; "src/a.cpp"; "-o"; "build/macos/a.cpp.o"];
      ["clang"; "-std=c11"; "-Wall"; "-Wextra"; "-arch"; "arm64"; "-arch"; "x86_64";
       "-c"; "src/b.c"; "-o"; "build/macos/b.c.o"];
      ["clang++"; "build/macos/a.cpp.o"; "build/macos/b.c.o";
       "-arch"; "arm64"; "-arch"; "x86_64"; "-o"; "build/macos/main"];
      ["/opt/homebrew/bin/x86_64-w64-mingw32-g++"; "-std=c++17"; "-Wall"; "-Wextra";
       "-c"; "src/a.cpp"; "-o"; "build/windows/a.cpp.o"];
      ["/opt/homebrew/bin/x86_64-w64-mingw32-gcc"; "-std=c11"; "-Wall"; "-Wextra";
       "-c"; "src/b.c"; "-o"; "build/windows/b.c.o"];
      ["/opt/homebrew/bin/x86_64-w64-mingw32-g++"; "build/windows/a.cpp.o";
       "build/windows/b.c.o"; "-static-libstdc++"; "-static-libgcc";
       "-o"; "build/windows/main.exe"];
      ["/opt/homebrew/bin/x86_64-unknown-linux-gnu-g++"; "-std=c++17"; "-Wall"; "-Wextra";
       "-c"; "src/a.cpp"; "-o"; "build/linux/a.cpp.o"];
      ["/opt/homebrew/bin/x86_64-unknown-linux-gnu-gcc"; "-std=c11"; "-Wall"; "-Wextra";
       "-c"; "src/b.c"; "-o"; "build/linux/b.c.o"];
      ["/opt/homebrew/bin/x86_64-unknown-linux-gnu-g++"; "build/linux/a.cpp.o";
       "build/linux/b.c.o"; "-std=c++17"; "-Wall"; "-Wextra"; "-o"; "build/linux/main"] ] /\
  Sim.paths (world (snd (run_script Build w))) =
    ["src"; "src/a.cpp"; "src/b.c"; "build";
     "build/macos"; "build/macos/a.cpp.o"; "build/macos/b.c.o"; "build/macos/main";
     "build/windows"; "build/windows/a.cpp.o"; "build/windows/b.c.o"; "build/windows/main.exe";
     "build/linux"; "build/linux/a.cpp.o"; "build/linux/b.c.o"; "build/linux/main"].
Proof. vm_compute. repeat split. Qed.

(** no macOS toolchain: the first command cannot be started, and the script
    ends there with status 1 *)
Example missing_toolchain :
  fst (run_script Build (Sim.project ["src/a.cpp"] [] (Sim.missing "clang++"))) = 1%Z
  /\ trace (snd (run_script Build (Sim.project ["src/a.cpp"] [] (Sim.missing "clang++")))) =
       [ (["clang++"; "-std=c++17"; "-Wall"; "-Wextra"; "-arch"; "arm64"; "-arch"; "x86_64";
           "-c"; "src/a.cpp"; "-o"; "build/macos/a.cpp.o"], FileNotFoundError) ].
Proof. vm_compute. split; reflexivity. Qed.

(** ** Facts about strings and paths *)

Section StringFacts.

Local Open Scope string_scope.

Lemma append_nil_r (s : string) : s ++ "" = s.
Proof. induction s as [|c s IH]; simpl; [reflexivity | now rewrite IH]. Qed.

Lemma append_assoc (a b c : string) : (a ++ b) ++ c = a ++ (b ++ c).
Proof. induction a as [|x a IH]; simpl; [reflexivity | now rewrite IH]. Qed.

Lemma length_append (a b : string) :
  String.length (a ++ b) = String.length a + String.length b.
Proof. induction a as [|x a IH]; simpl; [reflexivity | now rewrite IH]. Qed.

Lemma substring_append_right (pre suf : string) :
  substring (String.length pre) (String.length suf) (pre ++ suf) = suf.
Proof.
  induction pre as [|c pre IH]; simpl.
  - induction suf as [|c suf IH]; simpl; [reflexivity | now rewrite IH].
  - exact IH.
Qed.

Lemma substring_split (s : string) :
  forall k, k <= String.length s ->
  s = substring 0 k s ++ substring k (String.length s - k) s.
Proof.
  induction s as [|c s IH]; intros k Hk; simpl in *.
  - destruct k; reflexivity.
  - destruct k as [|k]; simpl.
    + f_equal. clear. induction s as [|c s IH]; simpl; [reflexivity | now rewrite <- IH].
    + f_equal. apply IH. lia.
Qed.

(** [endswith] holds exactly of the strings that are some text followed by
    the suffix *)
Lemma endswith_spec (s suffix : string) :
  Py.endswith s suffix = true <-> exists pre, s = pre ++ suffix.
Proof.
  unfold Py.endswith. split.
  - intros Hs. apply andb_true_iff in Hs. destruct Hs as [Hle Heq].
    apply Nat.leb_le in Hle. apply String.eqb_eq in Heq.
    exists (substring 0 (String.length s - String.length suffix) s).
    pose proof (substring_split s (String.length s - String.length suffix)) as Hsplit.
    replace (String.length s - (String.length s - String.length suffix))
      with (String.length suffix) in Hsplit by lia.
    rewrite Heq in Hsplit. apply Hsplit. lia.
  - intros [pre ->]. rewrite length_append.
    apply andb_true_iff. split.
    + apply Nat.leb_le. lia.
    + replace (String.length pre + String.length suffix - String.length suffix)
        with (String.length pre) by lia.
      rewrite substring_append_right. apply String.eqb_refl.
Qed.

Lemma endswith_truthy (s suffix : string) :
  Py.endswith s suffix = true -> Py.truthy suffix = true -> Py.truthy s = true.
Proof.
  intros Hs Hsuf. apply endswith_spec in Hs. destruct Hs as [pre ->].
  destruct pre; simpl; [assumption | reflexivity].
Qed.

Lemma last_char_append (pre suf : string) :
  Py.truthy suf = true -> last_char (pre ++ suf) = last_char suf.
Proof.
  intros Hsuf. induction pre as [|c pre IH]; simpl; [reflexivity|].
  rewrite <- IH. destruct (pre ++ suf) eqn:E; [|reflexivity].
  destruct pre; simpl in E; [subst suf; discriminate | discriminate].
Qed.

(** no file name ends in both [.c] and [.cpp] *)
Lemma endswith_c_not_cpp (s : string) :
  Py.endswith s ".c" = true -> Py.endswith s ".cpp" = false.
Proof.
  intros Hc. destruct (Py.endswith s ".cpp") eqn:Hcpp; [|reflexivity].
  apply endswith_spec in Hc. apply endswith_spec in Hcpp.
  destruct Hc as [p1 E1]. destruct Hcpp as [p2 E2].
  assert (L1 : last_char s = Some "c"%char)
    by (rewrite E1; now rewrite last_char_append).
  assert (L2 : last_char s = Some "p"%char)
    by (rewrite E2; now rewrite last_char_append).
  rewrite L1 in L2. discriminate.
Qed.

(** *** [basename] never contains a slash *)

Lemma has_sep_append (a b : string) : has_sep (a ++ b) = has_sep a || has_sep b.
Proof.
  induction a as [|c a IH]; simpl; [reflexivity|].
  rewrite IH. now rewrite orb_assoc.
Qed.

Lemma basename_from_no_sep (p : string) :
  forall pre, has_sep pre = false ->
  has_sep (os_path.basename_from (pre ++ p) p) = false.
Proof.
  induction p as [|c p IH]; intros pre Hpre; simpl.
  - now rewrite append_nil_r.
  - destruct (Ascii.eqb c os_path.sep) eqn:Hc.
    + apply (IH ""). reflexivity.
    + replace (pre ++ String c p) with ((pre ++ String c "") ++ p)
        by (rewrite append_assoc; reflexivity).
      apply IH. rewrite has_sep_append. simpl. now rewrite Hpre, Hc.
Qed.

Lemma basename_no_sep (p : string) : has_sep (os_path.basename p) = false.
Proof. apply (basename_from_no_sep p ""). reflexivity. Qed.

Lemma startswith_sep_has_sep (s : string) :
  os_path.startswith_sep s = true -> has_sep s = true.
Proof. destruct s as [|c s]; simpl; [discriminate | intros ->; reflexivity]. Qed.

(** the object file computed by each loop is [obj_path] *)
Lemma join_obj_path (t : target) (src_file : string) :
  os_path.join (build_dir_of t) (os_path.basename src_file ++ ".o") = obj_path t src_file.
Proof.
  unfold os_path.join, obj_path.
  destruct (os_path.startswith_sep (os_path.basename src_file ++ ".o")) eqn:E.
  - apply startswith_sep_has_sep in E. rewrite has_sep_append in E.
    rewrite basename_no_sep in E. discriminate.
  - destruct t; reflexivity.
Qed.

Lemma obj_path_truthy (t : target) (src_file : string) :
  Py.truthy (obj_path t src_file) = true.
Proof. destruct t; reflexivity. Qed.

End StringFacts.

Lemma filter_truthy_id (l : list string) :
  Forall (fun a => Py.truthy a = true) l -> filter Py.truthy l = l.
Proof.
  induction 1 as [|a l Ha Hl IH]; simpl; [reflexivity|].
  now rewrite Ha, IH.
Qed.

(** the [if arg] filter leaves every compile command as it is *)
Lemma compile_command_cpp (t : target) (src_file : string) :
  Py.endswith src_file ".cpp" = true ->
  filter Py.truthy ([cxx_of t] ++ COMMON_CXX_FLAGS ++ compile_arch_flags t
                      ++ ["-c"; src_file; "-o"; obj_path t src_file])
  = compile_command t src_file.
Proof.
  intros Hs. unfold compile_command. rewrite Hs.
  apply filter_truthy_id.
  assert (Py.truthy src_file = true) by (eapply endswith_truthy; eauto).
  pose proof (obj_path_truthy t src_file).
  destruct t; repeat constructor; assumption.
Qed.

Lemma compile_command_c (t : target) (src_file : string) :
  Py.endswith src_file ".cpp" = false ->
  Py.endswith src_file ".c" = true ->
  filter Py.truthy ([cc_of t] ++ COMMON_C_FLAGS ++ compile_arch_flags t
                      ++ ["-c"; src_file; "-o"; obj_path t src_file])
  = compile_command t src_file.
Proof.
  intros Hn Hs. unfold compile_command. rewrite Hn.
  apply filter_truthy_id.
  assert (Py.truthy src_file = true) by (eapply endswith_truthy; eauto).
  pose proof (obj_path_truthy t src_file).
  destruct t; repeat constructor; assumption.
Qed.

(** ... and every link command over object files of the loop *)
Lemma link_command_filter (t : target) (source_files : list string) :
  filter Py.truthy ([cxx_of t] ++ map (obj_path t) source_files
                      ++ link_flags t ++ ["-o"; executable_of t])
  = link_command t (map (obj_path t) source_files).
Proof.
  apply filter_truthy_id. unfold link_command.
  apply Forall_app. split; [destruct t; repeat constructor|].
  apply Forall_app. split.
  - apply Forall_forall. intros a Ha. apply in_map_iff in Ha.
    destruct Ha as [src [<- _]]. apply obj_path_truthy.
  - destruct t; repeat constructor.
Qed.

(** ** What a run leaves in the state *)

Section RunFacts.

Context {W : Type} `{Host W}.

(** [run_command] records the call; it returns [True] when the child process
    succeeded and leaves through [sys.exit(1)] otherwise *)
Lemma run_command_spec (command : list string) (cwd : option string) (s : state W) :
  exists lines,
    Forall not_failure_line lines /\
    run_command command cwd s =
      ((if succeeded (fst (subprocess_run command cwd (world s)))
        then Returned true else Exited 1),
       mkState (snd (subprocess_run command cwd (world s)))
               (stdout s ++ lines)
               (trace s ++ [(command, fst (subprocess_run command cwd (world s)))])).
Proof.
  unfold run_command, bind, print, subprocess, sys_exit, ret. cbn [world stdout trace].
  destruct (subprocess_run command cwd (world s)) as [res w'].
  destruct res as [out err | code out err | ]; cbn [fst snd succeeded].
  - destruct (Py.truthy out), (Py.truthy err); cbn [world stdout trace];
      rewrite <- ?app_assoc; cbn [app]; eexists; (split; [|reflexivity]);
      repeat constructor.
  - cbn [world stdout trace]. rewrite <- ?app_assoc; cbn [app]; eexists;
      (split; [|reflexivity]); repeat constructor.
  - cbn [world stdout trace]. rewrite <- ?app_assoc; cbn [app]; eexists;
      (split; [|reflexivity]); repeat constructor.
Qed.

Lemma ran_cons_ok (cmd : list string) (res : proc_result)
      (planned : list (list string)) (new : list entry) (finished : bool) :
  succeeded res = true -> ran planned new finished ->
  ran (cmd :: planned) ((cmd, res) :: new) finished.
Proof.
  intros Hok Hran. destruct finished; cbn [ran] in *.
  - destruct Hran as [Hm Hf]. split; [cbn; now rewrite Hm | constructor; assumption].
  - destruct Hran as (done & c & r & rest & -> & Hd & Hr & ->).
    exists ((cmd, res) :: done), c, r, rest. repeat split; try assumption.
    constructor; assumption.
Qed.

Lemma ran_cons_failed (cmd : list string) (res : proc_result)
      (planned : list (list string)) :
  succeeded res = false -> ran (cmd :: planned) [(cmd, res)] false.
Proof.
  intros Hres. exists [], cmd, res, planned. repeat split; [constructor | assumption].
Qed.

(** the state after one call of [run_command], line by line *)
Lemma run_command_log (command : list string) (cwd : option string) (s : state W) :
  run_command command cwd s =
    ((if succeeded (fst (subprocess_run command cwd (world s)))
      then Returned true else Exited 1),
     mkState (snd (subprocess_run command cwd (world s)))
             (stdout s ++ announce command
                :: report command (fst (subprocess_run command cwd (world s))))
             (trace s ++ [(command, fst (subprocess_run command cwd (world s)))])).
Proof.
  unfold run_command, bind, print, subprocess, sys_exit, ret, announce, report.
  cbn [world stdout trace].
  destruct (subprocess_run command cwd (world s)) as [res w'].
  destruct res as [out err | code out err | ]; cbn [fst snd succeeded].
  - destruct (Py.truthy out), (Py.truthy err); cbn [world stdout trace];
      rewrite <- ?app_assoc; reflexivity.
  - cbn [world stdout trace]. rewrite <- ?app_assoc. reflexivity.
  - cbn [world stdout trace]. rewrite <- ?app_assoc. reflexivity.
Qed.

End RunFacts.

Section LoopFacts.

Context {W : Type} `{Host W}.

Lemma loop_result_nil (t : target) (objs : list string) (s : state W) :
  loop_result t [] objs s.
Proof.
  exists [], []. rewrite !app_nil_r.
  destruct t; (split; [reflexivity|]); (split; [reflexivity|]);
    (split; [constructor|]); left; (split; [reflexivity|]);
    (split; [reflexivity | constructor]).
Qed.

(** one iteration that compiles [src] with [command], then goes on with
    [continue] *)
Lemma compile_step (t : target) (src : string) (rest objs : list string)
      (command : list string) (continue : M W loop_end) (s : state W)
      (body : M W loop_end) :
  recognised src = true ->
  command = compile_command t src ->
  (forall s', body s' =
     (ok <- run_command command None ;;
      if negb ok then print ("Failed to compile " ++ src) ;; ret FunctionReturned
      else continue) s') ->
  (forall s', exists new lines,
     trace (snd (continue s')) = trace s' ++ new /\
     stdout (snd (continue s')) = stdout s' ++ lines /\
     Forall not_failure_line lines /\
     ((fst (continue s') = Returned (LoopFinished ((objs ++ [obj_path t src]) ++ map (obj_path t) rest))
       /\ ran (map (compile_command t) (filter recognised rest)) new true)
      \/ (fst (continue s') = Exited 1
          /\ ran (map (compile_command t) (filter recognised rest)) new false))) ->
  exists new lines,
    trace (snd (body s)) = trace s ++ new /\
    stdout (snd (body s)) = stdout s ++ lines /\
    Forall not_failure_line lines /\
    ((fst (body s) = Returned (LoopFinished (objs ++ map (obj_path t) (src :: rest)))
      /\ ran (map (compile_command t) (filter recognised (src :: rest))) new true)
     \/ (fst (body s) = Exited 1
         /\ ran (map (compile_command t) (filter recognised (src :: rest))) new false)).
Proof.
  intros Hrec -> Hbody Hcont. rewrite Hbody. unfold bind.
  destruct (run_command_spec (compile_command t src) None s) as [lines1 [Hl1 ->]].
  cbn [filter]. rewrite Hrec. cbn [map].
  destruct (succeeded (fst (subprocess_run (compile_command t src) None (world s)))) eqn:Hok.
  - cbn [negb].
    match goal with |- context [continue ?s1] => destruct (Hcont s1) as (new & lines & Ht & Ho & Hl & Hr) end.
    cbn [trace stdout] in Ht, Ho.
    exists ((compile_command t src, fst (subprocess_run (compile_command t src) None (world s))) :: new),
           (lines1 ++ lines).
    rewrite Ht, Ho, <- !app_assoc. repeat split; [apply Forall_app; split; assumption|].
    rewrite <- app_assoc in Hr. cbn [app] in Hr.
    destruct Hr as [[Hr1 Hr2] | [Hr1 Hr2]]; [left | right];
      (split; [exact Hr1 | apply ran_cons_ok; assumption]).
  - cbn [fst snd trace stdout].
    exists [(compile_command t src, fst (subprocess_run (compile_command t src) None (world s)))],
           lines1.
    repeat split; [assumption|]. right. split; [reflexivity|].
    apply ran_cons_failed. exact Hok.
Qed.

(** one iteration that skips [src] *)
Lemma skip_step (t : target) (src : string) (rest objs : list string)
      (continue : M W loop_end) (s : state W) (body : M W loop_end) :
  recognised src = false ->
  (forall s', body s' =
     (print ("Skipping unknown file type: " ++ src) ;; continue) s') ->
  (forall s', exists new lines,
     trace (snd (continue s')) = trace s' ++ new /\
     stdout (snd (continue s')) = stdout s' ++ lines /\
     Forall not_failure_line lines /\
     ((fst (continue s') = Returned (LoopFinished ((objs ++ [obj_path t src]) ++ map (obj_path t) rest))
       /\ ran (map (compile_command t) (filter recognised rest)) new true)
      \/ (fst (continue s') = Exited 1
          /\ ran (map (compile_command t) (filter recognised rest)) new false))) ->
  exists new lines,
    trace (snd (body s)) = trace s ++ new /\
    stdout (snd (body s)) = stdout s ++ lines /\
    Forall not_failure_line lines /\
    ((fst (body s) = Returned (LoopFinished (objs ++ map (obj_path t) (src :: rest)))
      /\ ran (map (compile_command t) (filter recognised (src :: rest))) new true)
     \/ (fst (body s) = Exited 1
         /\ ran (map (compile_command t) (filter recognised (src :: rest))) new false)).
Proof.
  intros Hrec Hbody Hcont. rewrite Hbody. unfold bind, print.
  cbn [filter]. rewrite Hrec. cbn [map].
  match goal with |- context [continue ?s1] =>
    destruct (Hcont s1) as (new & lines & Ht & Ho & Hl & Hr) end.
  cbn [trace stdout] in Ht, Ho.
  exists new, (("Skipping unknown file type: " ++ src)%string :: lines).
  rewrite Ht, Ho, <- !app_assoc. repeat split.
  - constructor; [reflexivity | assumption].
  - rewrite <- app_assoc in Hr. exact Hr.
Qed.

Ltac loop_iteration T IH :=
  match goal with
  | src : string, rest : list string, objs : list string |- _ =>
      unfold loop_result in IH |- *;
      cbn [loop_for build_macos_loop build_windows_loop build_linux_loop] in IH |- *;
      let E := fresh "E" in
      pose proof (join_obj_path T src) as E; cbn [build_dir_of] in E; rewrite E; clear E;
      let Hcpp := fresh "Hcpp" in
      let Hc := fresh "Hc" in
      destruct (Py.endswith src ".cpp") eqn:Hcpp;
      [ | destruct (Py.endswith src ".c") eqn:Hc ];
      [ match goal with |- context [run_command ?c None] =>
          eapply (compile_step T src rest objs c);
          [ unfold recognised; rewrite Hcpp; reflexivity
          | exact (compile_command_cpp T src Hcpp)
          | intros; reflexivity
          | intros; apply IH ]
        end
      | match goal with |- context [run_command ?c None] =>
          eapply (compile_step T src rest objs c);
          [ unfold recognised; rewrite Hcpp, Hc; reflexivity
          | exact (compile_command_c T src Hcpp Hc)
          | intros; reflexivity
          | intros; apply IH ]
        end
      | eapply (skip_step T src rest objs);
        [ unfold recognised; rewrite Hcpp, Hc; reflexivity
        | intros; reflexivity
        | intros; apply IH ] ]
  end.

(** the loop of every target *)
Lemma loop_spec (t : target) (srcs : list string) :
  forall objs s, loop_result t srcs objs s.
Proof.
  induction srcs as [|src rest IH]; intros objs s; [apply loop_result_nil|].
  destruct t.
  - loop_iteration MacOS IH.
  - loop_iteration Windows IH.
  - loop_iteration Linux IH.
Qed.

End LoopFacts.

Section PipelineFacts.

Context {W : Type} `{Host W}.

Lemma get_source_files_spec (s : state W) :
  get_source_files SRC_DIR s = (Returned (discovered (world s)), s).
Proof. reflexivity. Qed.

Lemma ran_extend (planned more : list (list string)) (new : list entry) :
  ran planned new false -> ran (planned ++ more) new false.
Proof.
  intros (done & cmd & res & rest & -> & Hd & Hr & ->).
  exists done, cmd, res, (rest ++ more). repeat split; try assumption.
  now rewrite <- app_assoc.
Qed.

Lemma ran_last (planned : list (list string)) (done : list entry)
      (cmd : list string) (res : proc_result) :
  ran planned done true ->
  ran (planned ++ [cmd]) (done ++ [(cmd, res)]) (succeeded res).
Proof.
  intros [<- Hd]. destruct (succeeded res) eqn:Hres; cbn [ran].
  - split; [rewrite map_app; reflexivity|].
    apply Forall_app. split; [assumption | repeat constructor; exact Hres].
  - exists done, cmd, res, []. repeat split; assumption.
Qed.

(** the part of a pipeline that follows source discovery, when at least one
    file was found: the loop, then the link step *)
Lemma link_step (t : target) (srcs : list string) (success_line : string)
      (body : M W unit) (s : state W) :
  not_failure_line success_line ->
  (forall s', body s' =
     (r <- loop_for t srcs [] ;;
      match r with
      | FunctionReturned => ret tt
      | LoopFinished object_files =>
          ok <- run_command
                  (filter Py.truthy ([cxx_of t] ++ object_files ++ link_flags t
                                       ++ ["-o"; executable_of t])) None ;;
          if (ok : bool) then print success_line else ret tt
      end) s') ->
  exists new lines,
    trace (snd (body s)) = trace s ++ new /\
    stdout (snd (body s)) = stdout s ++ lines /\
    Forall not_failure_line lines /\
    ((fst (body s) = Returned tt /\ ran (plan t srcs) new true)
     \/ (fst (body s) = Exited 1 /\ ran (plan t srcs) new false)).
Proof.
  intros Hline Hbody. rewrite Hbody. unfold bind.
  destruct (loop_spec t srcs [] s) as (new & lines & Ht & Ho & Hl & Hr).
  destruct (loop_for t srcs [] s) as [r s1]. cbn [fst snd] in *.
  destruct Hr as [[-> Hran] | [-> Hran]].
  - change (@nil string ++ map (obj_path t) srcs) with (map (obj_path t) srcs).
    cbv beta iota. rewrite link_command_filter.
    destruct (run_command_spec (link_command t (map (obj_path t) srcs)) None s1)
      as [lines1 [Hl1 ->]].
    pose proof (ran_last _ _ (link_command t (map (obj_path t) srcs))
                  (fst (subprocess_run (link_command t (map (obj_path t) srcs)) None (world s1)))
                  Hran) as Hlast.
    destruct (succeeded (fst (subprocess_run (link_command t (map (obj_path t) srcs))
                                None (world s1)))).
    + unfold print. cbn [fst snd trace stdout]. rewrite Ht, Ho, <- !app_assoc.
      eexists _, _. repeat split.
      * apply Forall_app. split; [exact Hl|].
        apply Forall_app. split; [exact Hl1 | repeat constructor; exact Hline].
      * left. split; [reflexivity | exact Hlast].
    + cbn [fst snd trace stdout]. rewrite Ht, Ho, <- !app_assoc.
      eexists _, _. repeat split.
      * apply Forall_app. split; [exact Hl | exact Hl1].
      * right. split; [reflexivity | exact Hlast].
  - cbn [fst snd]. exists new, lines. repeat split; try assumption.
    right. split; [reflexivity | apply ran_extend; exact Hran].
Qed.

(** the three pipelines, seen as one *)
Lemma build_for_unfold (t : target) (s : state W) :
  build_for t s =
    match discovered (world (at_discovery t s)) with
    | [] => print no_sources_line
    | _ :: _ =>
        r <- loop_for t (discovered (world (at_discovery t s))) [] ;;
        match r with
        | FunctionReturned => ret tt
        | LoopFinished object_files =>
            ok <- run_command
                    (filter Py.truthy ([cxx_of t] ++ object_files ++ link_flags t
                                         ++ ["-o"; executable_of t])) None ;;
            if (ok : bool) then print (success_line t) else ret tt
        end
    end (at_discovery t s).
Proof. destruct t; reflexivity. Qed.

(** every run of a pipeline *)
Lemma pipeline_spec (t : target) (s : state W) :
  exists new lines,
    trace (snd (build_for t s)) = trace s ++ new /\
    stdout (snd (build_for t s)) = stdout s ++ banner t :: lines /\
    Forall not_failure_line lines /\
    match discovered (world (at_discovery t s)) with
    | [] =>
        new = [] /\ lines = [no_sources_line] /\
        fst (build_for t s) = Returned tt /\
        world (snd (build_for t s)) = os_makedirs (build_dir_of t) (world s)
    | _ :: _ =>
        (fst (build_for t s) = Returned tt
         /\ ran (plan t (discovered (world (at_discovery t s)))) new true)
        \/ (fst (build_for t s) = Exited 1
            /\ ran (plan t (discovered (world (at_discovery t s)))) new false)
    end.
Proof.
  rewrite build_for_unfold.
  destruct (discovered (world (at_discovery t s))) as [|src rest] eqn:Hsrcs.
  - exists [], [no_sources_line]. cbn. rewrite app_nil_r, <- app_assoc.
    repeat split. repeat constructor.
  - match goal with |- context [snd (?b (at_discovery t s))] =>
      destruct (link_step t (src :: rest) (success_line t) b (at_discovery t s))
        as (new & lines & Ht & Ho & Hl & Hr)
    end.
    + destruct t; reflexivity.
    + intros; reflexivity.
    + exists new, lines. rewrite Ht, Ho. cbn [at_discovery trace stdout].
      rewrite <- app_assoc. repeat split; assumption.
Qed.

End PipelineFacts.

(** ** Compile commands and link commands are different commands *)

Lemma compile_command_has_c (t : target) (src : string) :
  In "-c" (compile_command t src).
Proof.
  unfold compile_command.
  destruct (Py.endswith src ".cpp"); destruct t; cbn; tauto.
Qed.

Lemma obj_path_not_flag (t : target) (src : string) : obj_path t src <> "-c".
Proof. destruct t; discriminate. Qed.

Lemma link_command_no_c (t : target) (srcs : list string) :
  ~ In "-c" (link_command t (map (obj_path t) srcs)).
Proof.
  unfold link_command. intros Hin.
  apply in_app_or in Hin. destruct Hin as [Hin | Hin].
  - destruct t; cbn in Hin; destruct Hin as [E | []]; discriminate E.
  - apply in_app_or in Hin. destruct Hin as [Hin | Hin].
    + apply in_map_iff in Hin. destruct Hin as (src & E & _).
      exact (obj_path_not_flag t src E).
    + destruct t; cbn in Hin;
        repeat (destruct Hin as [E | Hin]; [discriminate E|]); exact Hin.
Qed.

Lemma link_is_not_compile (t : target) (srcs : list string) (src : string) :
  link_command t (map (obj_path t) srcs) <> compile_command t src.
Proof.
  intros E. apply (link_command_no_c t srcs). rewrite E. apply compile_command_has_c.
Qed.

(** ** Runs that stop at a failure *)

Lemma failed_entry_is_last (planned : list (list string)) (new : list entry)
      (finished : bool) (cmd : list string) (res : proc_result) :
  ran planned new finished -> In (cmd, res) new -> succeeded res = false ->
  finished = false /\
  exists done rest,
    new = done ++ [(cmd, res)] /\ Forall ok_entry done
    /\ planned = map fst done ++ cmd :: rest.
Proof.
  intros Hran Hin Hres. destruct finished; cbn [ran] in Hran.
  - destruct Hran as [_ Hall]. rewrite Forall_forall in Hall.
    specialize (Hall _ Hin). unfold ok_entry in Hall. cbn in Hall. congruence.
  - split; [reflexivity|].
    destruct Hran as (done & c & r & rest & -> & Hd & Hr & ->).
    apply in_app_or in Hin. destruct Hin as [Hin | [E | []]].
    + rewrite Forall_forall in Hd. specialize (Hd _ Hin).
      unfold ok_entry in Hd. cbn in Hd. congruence.
    + inversion E; subst. exists done, rest. repeat split; assumption.
Qed.

Lemma last_or_before {A : Type} (a b rest : list A) (x c : A) :
  a ++ [x] = b ++ c :: rest ->
  (rest = [] /\ a = b /\ x = c) \/ (exists rest', rest = rest' ++ [x] /\ a = b ++ c :: rest').
Proof.
  intros E. destruct rest as [|y rest' _] using rev_ind.
  - left. apply app_inj_tail in E. destruct E as [-> ->]. repeat split.
  - right. change (b ++ c :: rest' ++ [y]) with (b ++ (c :: rest') ++ [y]) in E.
    rewrite app_assoc in E. apply app_inj_tail in E. destruct E as [-> ->].
    exists rest'. split; reflexivity.
Qed.

Lemma before_the_last {A : Type} (a b rest : list A) (x c : A) :
  a ++ [x] = b ++ c :: rest -> c <> x -> incl (b ++ [c]) a.
Proof.
  intros E Hne. destruct (last_or_before _ _ _ _ _ E) as [(_ & _ & E') | (rest' & _ & ->)].
  - congruence.
  - intros z Hz. apply in_app_or in Hz. apply in_or_app.
    destruct Hz as [Hz | [<- | []]]; [left; exact Hz | right; left; reflexivity].
Qed.

(** a run in which no compile command failed got as far as the link
    command *)
Lemma ran_reaches_link (compiles : list (list string)) (link : list string)
      (new : list entry) (finished : bool) :
  ran (compiles ++ [link]) new finished ->
  Forall (fun c => In "-c" c) compiles ->
  (forall cmd res, In (cmd, res) new -> In "-c" cmd -> succeeded res = true) ->
  exists done res,
    new = done ++ [(link, res)] /\ map fst done = compiles /\ Forall ok_entry done.
Proof.
  intros Hran Hc Hok. destruct finished; cbn [ran] in Hran.
  - destruct Hran as [Hm Hall].
    destruct new as [|e new' _] using rev_ind.
    + destruct compiles; discriminate Hm.
    + rewrite map_app in Hm. cbn [map] in Hm. apply app_inj_tail in Hm.
      destruct Hm as [Hm Hl]. apply Forall_app in Hall. destruct Hall as [Hall _].
      destruct e as [c r]. cbn in Hl. subst c. exists new', r. repeat split; assumption.
  - destruct Hran as (done & cmd & res & rest & -> & Hd & Hres & Hplan).
    destruct (last_or_before _ _ _ _ _ Hplan) as [(-> & Hm & ->) | (rest' & _ & Hm)].
    + exists done, res. repeat split; [symmetry; exact Hm | exact Hd].
    + exfalso. assert (Hin : In "-c" cmd).
      { rewrite Forall_forall in Hc. apply Hc. rewrite Hm.
        apply in_or_app. right. left. reflexivity. }
      assert (Hlast : In (cmd, res) (done ++ [(cmd, res)]))
        by (apply in_or_app; right; left; reflexivity).
      specialize (Hok cmd res Hlast Hin). congruence.
Qed.

Lemma ran_firstn (planned : list (list string)) (new : list entry) (finished : bool) :
  ran planned new finished -> exists k, map fst new = firstn k planned.
Proof.
  destruct finished; cbn [ran].
  - intros [<- _]. exists (length (map fst new)). now rewrite firstn_all.
  - intros (done & cmd & res & rest & -> & _ & _ & ->).
    exists (length (map fst done) + 1).
    rewrite firstn_app_2, map_app. reflexivity.
Qed.

Section Orderly.

Context {W : Type} `{Host W}.

Lemma orderly_quiet {A : Type} (m : M W A) :
  (forall s, exists a, fst (m s) = Returned a) ->
  (forall s, trace (snd (m s)) = trace s) ->
  orderly m.
Proof.
  intros Hr Ht s. exists []. rewrite app_nil_r. split; [apply Ht|].
  left. split; [apply Hr | constructor].
Qed.

Lemma orderly_print (line : string) : orderly (W := W) (print line).
Proof. apply orderly_quiet; intros s; [exists tt|]; reflexivity. Qed.

Lemma orderly_effect (f : W -> W) : orderly (effect f).
Proof. apply orderly_quiet; intros s; [exists tt|]; reflexivity. Qed.

Lemma orderly_observe {A : Type} (f : W -> A) : orderly (observe f).
Proof. apply orderly_quiet; intros s; [eexists|]; reflexivity. Qed.

Lemma orderly_bind {A B : Type} (m : M W A) (k : A -> M W B) :
  orderly m -> (forall a, orderly (k a)) -> orderly (bind m k).
Proof.
  intros Hm Hk s. unfold bind.
  destruct (Hm s) as (new1 & Ht1 & Hr1).
  destruct (m s) as [r s1]. cbn [fst snd] in *.
  destruct Hr1 as [[[a ->] Hok1] | [-> (e & He & Hf)]].
  - destruct (Hk a s1) as (new2 & Ht2 & Hr2).
    exists (new1 ++ new2). rewrite Ht2, Ht1, app_assoc. split; [reflexivity|].
    destruct Hr2 as [[Hret Hok2] | [Hex (e & He & Hf)]].
    + left. split; [exact Hret | apply Forall_app; split; assumption].
    + right. split; [exact Hex|]. exists e. split; [apply in_or_app; right|]; assumption.
  - exists new1. split; [exact Ht1|]. right. split; [reflexivity|].
    exists e. split; assumption.
Qed.

Lemma orderly_build_for (t : target) : orderly (W := W) (build_for t).
Proof.
  intros s. destruct (pipeline_spec t s) as (new & lines & Ht & _ & _ & Hr).
  exists new. split; [exact Ht|].
  destruct (discovered (world (at_discovery t s))).
  - destruct Hr as (-> & _ & Hret & _). left. split; [exists tt; exact Hret | constructor].
  - destruct Hr as [[Hret [_ Hok]] | [Hex Hran]].
    + left. split; [exists tt; exact Hret | exact Hok].
    + right. split; [exact Hex|].
      destruct Hran as (done & cmd & res & rest & -> & _ & Hres & _).
      exists (cmd, res). split; [apply in_or_app; right; left; reflexivity | exact Hres].
Qed.

Lemma orderly_build_all : orderly (W := W) build_all.
Proof.
  unfold build_all.
  apply orderly_bind; [apply orderly_print | intros _].
  apply orderly_bind; [apply orderly_effect | intros _].
  apply orderly_bind; [exact (orderly_build_for MacOS) | intros _].
  apply orderly_bind; [exact (orderly_build_for Windows) | intros _].
  apply orderly_bind; [exact (orderly_build_for Linux) | intros _].
  apply orderly_bind; [apply orderly_print | intros _].
  apply orderly_print.
Qed.

Lemma orderly_clean_all : orderly (W := W) clean_all.
Proof.
  unfold clean_all.
  apply orderly_bind; [apply orderly_print | intros _].
  apply orderly_bind; [apply orderly_observe | intros present].
  apply orderly_bind; [|intros _; apply orderly_print].
  destruct present; [|apply orderly_print].
  apply orderly_bind; [apply orderly_effect | intros _; apply orderly_print].
Qed.

Lemma orderly_main (command : cli_command) : orderly (W := W) (main command).
Proof.
  unfold main.
  apply orderly_bind; [apply orderly_observe | intros dir].
  apply orderly_bind; [apply orderly_effect | intros _].
  apply orderly_bind; [apply orderly_observe | intros cwd].
  apply orderly_bind; [apply orderly_print | intros _].
  destruct command; [apply orderly_build_all | apply orderly_clean_all].
Qed.

End Orderly.

Section ObjectPaths.

Local Open Scope string_scope.

Lemma append_inj_l (a x y : string) : a ++ x = a ++ y -> x = y.
Proof. induction a as [|c a IH]; cbn; intros E; [exact E | injection E; auto]. Qed.

Lemma append_inj_r (z : string) : forall x y, x ++ z = y ++ z -> x = y.
Proof.
  induction x as [|c x IH]; intros [|d y] E; cbn in E.
  - reflexivity.
  - apply (f_equal String.length) in E. cbn in E. rewrite length_append in E. lia.
  - apply (f_equal String.length) in E. cbn in E. rewrite length_append in E. lia.
  - injection E as -> E. f_equal. exact (IH y E).
Qed.

(** two source files share their object file exactly when they share their
    basename *)
Lemma obj_path_eq_iff (t : target) (a b : string) :
  obj_path t a = obj_path t b <-> os_path.basename a = os_path.basename b.
Proof.
  unfold obj_path. split.
  - intros E. apply append_inj_l in E. apply append_inj_l in E.
    exact (append_inj_r _ _ _ E).
  - intros ->. reflexivity.
Qed.

End ObjectPaths.

Lemma NoDup_map_transfer {A B C : Type} (f : A -> B) (g : A -> C) (l : list A) :
  (forall x y, f x = f y -> g x = g y) -> NoDup (map g l) -> NoDup (map f l).
Proof.
  intros Hfg. induction l as [|a l IH]; cbn; intros Hnd; [constructor|].
  inversion Hnd as [|? ? Hnotin Hnd']; subst. constructor; [|auto].
  intros Hin. apply Hnotin. apply in_map_iff in Hin. destruct Hin as (x & E & Hx).
  apply in_map_iff. exists x. split; [apply Hfg; exact E | exact Hx].
Qed.

Lemma in_firstn {A : Type} (k : nat) (l : list A) (x : A) :
  In x (firstn k l) -> In x l.
Proof.
  revert l. induction k as [|k IH]; intros [|a l] Hin; cbn in *; try contradiction.
  destruct Hin as [-> | Hin]; [left; reflexivity | right; auto].
Qed.

Lemma filter_all {A : Type} (f : A -> bool) (l : list A) :
  Forall (fun x => f x = true) l -> filter f l = l.
Proof.
  induction 1 as [|a l Ha Hl IH]; cbn; [reflexivity|]. now rewrite Ha, IH.
Qed.

Section PlanFacts.

Context {W : Type} `{Host W}.

(** the commands a pipeline ran are commands of its plan *)
Lemma commands_in_plan (t : target) (s : state W) (new : list entry)
      (cmd : list string) (res : proc_result) :
  trace (snd (build_for t s)) = trace s ++ new ->
  In (cmd, res) new ->
  In cmd (plan t (discovered (world (at_discovery t s)))).
Proof.
  intros Htrace Hin.
  destruct (pipeline_spec t s) as (new' & lines & Ht & _ & _ & Hr).
  rewrite Htrace in Ht. apply app_inv_head in Ht. subst new'.
  destruct (discovered (world (at_discovery t s))) as [|src0 rest0].
  - destruct Hr as (-> & _). destruct Hin.
  - assert (Hk : exists k, map fst new = firstn k (plan t (src0 :: rest0))).
    { destruct Hr as [[_ Hran] | [_ Hran]]; exact (ran_firstn _ _ _ Hran). }
    destruct Hk as [k Hk]. apply (in_firstn k). rewrite <- Hk.
    apply in_map_iff. exists (cmd, res). split; [reflexivity | exact Hin].
Qed.

(** a pipeline in which no compile command failed ran its link command
    last *)
Lemma link_command_reached (t : target) (s : state W) (new : list entry) :
  trace (snd (build_for t s)) = trace s ++ new ->
  discovered (world (at_discovery t s)) <> [] ->
  (forall cmd res, In (cmd, res) new -> In "-c" cmd -> succeeded res = true) ->
  exists done res,
    new = done ++ [(link_command t (map (obj_path t) (discovered (world (at_discovery t s)))),
                    res)]
    /\ map fst done
       = map (compile_command t) (filter recognised (discovered (world (at_discovery t s))))
    /\ Forall ok_entry done.
Proof.
  intros Htrace Hne Hok.
  destruct (pipeline_spec t s) as (new' & lines & Ht & _ & _ & Hr).
  rewrite Htrace in Ht. apply app_inv_head in Ht. subst new'.
  destruct (discovered (world (at_discovery t s))) as [|src0 rest0]; [congruence|].
  assert (Hran : exists b, ran (plan t (src0 :: rest0)) new b).
  { destruct Hr as [[_ Hran] | [_ Hran]]; eexists; exact Hran. }
  destruct Hran as [b Hran]. unfold plan in Hran.
  apply (ran_reaches_link _ _ _ _ Hran); [|exact Hok].
  apply Forall_forall. intros c Hc. apply in_map_iff in Hc.
  destruct Hc as (src & <- & _). apply compile_command_has_c.
Qed.

(** the object file of every discovered file is handed to the linker,
    whether the file was compiled or skipped *)
Lemma every_object_is_linked (t : target) (s : state W) (new : list entry)
      (src : string) :
  trace (snd (build_for t s)) = trace s ++ new ->
  (forall cmd res, In (cmd, res) new -> In "-c" cmd -> succeeded res = true) ->
  In src (discovered (world (at_discovery t s))) ->
  exists done res link,
    new = done ++ [(link, res)] /\ In (obj_path t src) link
    /\ map fst done
       = map (compile_command t) (filter recognised (discovered (world (at_discovery t s)))).
Proof.
  intros Htrace Hok Hsrc.
  assert (Hne : discovered (world (at_discovery t s)) <> [])
    by (intros E; rewrite E in Hsrc; destruct Hsrc).
  destruct (link_command_reached t s new Htrace Hne Hok) as (done & res & -> & Hm & _).
  exists done, res, (link_command t (map (obj_path t) (discovered (world (at_discovery t s))))).
  split; [reflexivity|]. split; [|exact Hm].
  unfold link_command. apply in_or_app. right. apply in_or_app. left.
  apply in_map. exact Hsrc.
Qed.

End PlanFacts.

(** ** The warnings for skipped files *)

Section Warnings.

Context {W : Type} `{Host W}.

Lemma skipping_line_is_skipping_line (src : string) :
  is_skipping_line (skipping_line src) = true.
Proof. unfold is_skipping_line, skipping_line. cbn. destruct src; reflexivity. Qed.

Lemma run_command_prints_no_warning (command : list string) (res : proc_result) :
  filter is_skipping_line (announce command :: report command res) = [].
Proof.
  destruct res as [out err | code out err | ]; cbn; [|reflexivity|reflexivity].
  destruct (Py.truthy out), (Py.truthy err); reflexivity.
Qed.

(** one iteration that compiles [src] *)
Lemma warnings_compile_step (src : string) (rest : list string)
      (command : list string) (continue body : M W loop_end) (s : state W) :
  recognised src = true ->
  (forall s', body s' =
     (ok <- run_command command None ;;
      if negb ok then print ("Failed to compile " ++ src) ;; ret FunctionReturned
      else continue) s') ->
  (forall s', exists lines,
     stdout (snd (continue s')) = stdout s' ++ lines /\
     (fst (continue s') <> Exited 1 ->
      filter is_skipping_line lines = map skipping_line (filter unrecognised rest))) ->
  exists lines,
    stdout (snd (body s)) = stdout s ++ lines /\
    (fst (body s) <> Exited 1 ->
     filter is_skipping_line lines = map skipping_line (filter unrecognised (src :: rest))).
Proof.
  intros Hrec Hbody Hcont. rewrite Hbody. unfold bind. rewrite run_command_log.
  assert (Hu : unrecognised src = false) by (unfold unrecognised; now rewrite Hrec).
  cbn [filter]. rewrite Hu.
  destruct (succeeded _).
  - cbn [negb].
    match goal with |- context [continue ?s1] => destruct (Hcont s1) as (lines & Ho & Hf) end.
    cbn [stdout] in Ho.
    eexists (announce command :: report command _ ++ lines).
    rewrite Ho, <- app_assoc. split; [reflexivity|].
    intros Hne. change (announce command :: report command ?r ++ lines)
      with ((announce command :: report command r) ++ lines).
    rewrite filter_app, run_command_prints_no_warning. exact (Hf Hne).
  - cbn [fst snd stdout]. eexists. split; [reflexivity|]. intros Hne. congruence.
Qed.

(** one iteration that skips [src] *)
Lemma warnings_skip_step (src : string) (rest : list string)
      (continue body : M W loop_end) (s : state W) :
  recognised src = false ->
  (forall s', body s' = (print (skipping_line src) ;; continue) s') ->
  (forall s', exists lines,
     stdout (snd (continue s')) = stdout s' ++ lines /\
     (fst (continue s') <> Exited 1 ->
      filter is_skipping_line lines = map skipping_line (filter unrecognised rest))) ->
  exists lines,
    stdout (snd (body s)) = stdout s ++ lines /\
    (fst (body s) <> Exited 1 ->
     filter is_skipping_line lines = map skipping_line (filter unrecognised (src :: rest))).
Proof.
  intros Hrec Hbody Hcont. rewrite Hbody. unfold bind, print.
  assert (Hu : unrecognised src = true) by (unfold unrecognised; now rewrite Hrec).
  cbn [filter]. rewrite Hu. cbn [map].
  match goal with |- context [continue ?s1] => destruct (Hcont s1) as (lines & Ho & Hf) end.
  cbn [stdout] in Ho. exists (skipping_line src :: lines).
  rewrite Ho, <- app_assoc. split; [reflexivity|].
  intros Hne. cbn [filter]. rewrite skipping_line_is_skipping_line, (Hf Hne). reflexivity.
Qed.

Ltac warnings_iteration IH :=
  match goal with
  | src : string, rest : list string |- _ =>
      cbn [loop_for build_macos_loop build_windows_loop build_linux_loop] in IH |- *;
      let Hcpp := fresh "Hcpp" in
      let Hc := fresh "Hc" in
      destruct (Py.endswith src ".cpp") eqn:Hcpp;
      [ | destruct (Py.endswith src ".c") eqn:Hc ];
      [ eapply (warnings_compile_step src rest);
        [ unfold recognised; rewrite Hcpp; reflexivity
        | intros; reflexivity
        | intros; apply IH ]
      | eapply (warnings_compile_step src rest);
        [ unfold recognised; rewrite Hcpp, Hc; reflexivity
        | intros; reflexivity
        | intros; apply IH ]
      | eapply (warnings_skip_step src rest);
        [ unfold recognised; rewrite Hcpp, Hc; reflexivity
        | intros; reflexivity
        | intros; apply IH ] ]
  end.

Lemma loop_warnings (t : target) (srcs : list string) :
  forall objs s, exists lines,
    stdout (snd (loop_for t srcs objs s)) = stdout s ++ lines /\
    (fst (loop_for t srcs objs s) <> Exited 1 ->
     filter is_skipping_line lines = map skipping_line (filter unrecognised srcs)).
Proof.
  induction srcs as [|src rest IH]; intros objs s.
  - exists []. destruct t; cbn; rewrite app_nil_r; split; reflexivity.
  - destruct t; warnings_iteration IH.
Qed.

End Warnings.

(** ** Where the outputs go *)

Section OutputPaths.

Local Open Scope string_scope.

Lemma basename_from_without_sep (q : string) :
  forall after, has_sep q = false -> os_path.basename_from after q = after.
Proof.
  induction q as [|c q IH]; intros after Hq; cbn in *; [reflexivity|].
  apply orb_false_iff in Hq. destruct Hq as [Hc Hq].
  unfold os_path.sep in *. rewrite Hc. apply IH. exact Hq.
Qed.

Lemma basename_from_after_sep (pre name : string) :
  forall after, has_sep name = false ->
  os_path.basename_from after (pre ++ "/" ++ name) = name.
Proof.
  induction pre as [|c pre IH]; intros after Hname; cbn.
  - apply basename_from_without_sep. exact Hname.
  - destruct (Ascii.eqb c os_path.sep); apply IH; exact Hname.
Qed.

Lemma basename_after_sep (pre name : string) :
  has_sep name = false -> os_path.basename (pre ++ "/" ++ name) = name.
Proof. apply basename_from_after_sep. Qed.

Lemma object_name_has_no_sep (src_file : string) :
  has_sep (os_path.basename src_file ++ ".o") = false.
Proof. rewrite has_sep_append, basename_no_sep. reflexivity. Qed.

Lemma obj_path_last_char (t : target) (src_file : string) :
  last_char (obj_path t src_file) = Some "o"%char.
Proof.
  unfold obj_path. rewrite <- !append_assoc. now rewrite last_char_append.
Qed.

End OutputPaths.

(** ** Extensions, basenames and object files *)

Section ExtensionFacts.

Local Open Scope string_scope.








Lemma obj_path_ends_in_o (t : target) (src : string) :
  Py.endswith (obj_path t src) ".o" = true.
Proof.
  apply endswith_spec. exists (build_dir_of t ++ "/" ++ os_path.basename src).
  unfold obj_path. rewrite !append_assoc. reflexivity.
Qed.

End ExtensionFacts.


(** ** The file a command compiles *)




(** ** The object files of a record *)

Lemma compile_command_output (t : target) (src : string) :
  existsb (String.eqb "-c") (compile_command t src) = true
  /\ last (compile_command t src) ""%string = obj_path t src.
Proof.
  unfold compile_command. destruct (Py.endswith src ".cpp"); destruct t; split; reflexivity.
Qed.

Lemma compiled_objects_of_compiles (t : target) (srcs : list string) :
  forall done : list entry,
    map fst done = map (compile_command t) srcs -> Forall ok_entry done ->
    compiled_objects done = map (obj_path t) srcs.
Proof.
  unfold compiled_objects.
  induction srcs as [|src srcs IH]; intros [|[cmd res] done] Hm Hok;
    try discriminate Hm; [reflexivity|].
  cbn in Hm. injection Hm as -> Hm. inversion Hok as [|? ? Hres Hok']; subst.
  unfold ok_entry in Hres. cbn in Hres.
  destruct (compile_command_output t src) as [Hc Hlast].
  cbn [filter fst snd]. rewrite Hc, Hres. cbn [andb map fst]. rewrite Hlast.
  f_equal. apply IH; assumption.
Qed.

Lemma no_c_in_link_command (t : target) (srcs : list string) :
  existsb (String.eqb "-c") (link_command t (map (obj_path t) srcs)) = false.
Proof.
  destruct (existsb _ _) eqn:E; [|reflexivity].
  apply existsb_exists in E. destruct E as (a & Hin & Ha).
  apply String.eqb_eq in Ha. subst a. destruct (link_command_no_c t srcs Hin).
Qed.

Section WarnedFiles.

Context {W : Type} `{Host W}.


Lemma glob_contract_recognised (w : W) :
  glob_matches_its_pattern w -> Forall (fun src => recognised src = true) (discovered w).
Proof.
  intros [Hcpp Hc]. unfold discovered. apply Forall_app. split.
  - eapply Forall_impl; [|exact Hcpp]. intros f Hf. unfold recognised. now rewrite Hf.
  - eapply Forall_impl; [|exact Hc]. intros f Hf. unfold recognised. rewrite Hf.
    apply orb_true_r.
Qed.

End WarnedFiles.

Section LinkReached.

Context {W : Type} `{Host W}.

(** a command without [-c] in the record of a pipeline is its link command,
    and every compile command before it succeeded *)
Lemma link_in_record (t : target) (s : state W) (new : list entry)
      (cmd : list string) (res : proc_result) :
  trace (snd (build_for t s)) = trace s ++ new ->
  In (cmd, res) new -> ~ In "-c"%string cmd ->
  discovered (world (at_discovery t s)) <> []
  /\ forall cmd' res', In (cmd', res') new -> In "-c"%string cmd' -> succeeded res' = true.
Proof.
  intros Htrace Hin Hnc.
  pose proof (commands_in_plan t s new cmd res Htrace Hin) as Hplan.
  assert (Hcompile : forall c, In c (map (compile_command t)
                                      (filter recognised (discovered (world (at_discovery t s))))) ->
                               In "-c"%string c).
  { intros c Hc. apply in_map_iff in Hc. destruct Hc as (src & <- & _).
    apply compile_command_has_c. }
  destruct (pipeline_spec t s) as (new' & lines & Ht & _ & _ & Hr).
  rewrite Htrace in Ht. apply app_inv_head in Ht. subst new'.
  destruct (discovered (world (at_discovery t s))) as [|src0 rest0] eqn:Hsrcs.
  - destruct Hr as (-> & _). destruct Hin.
  - split; [discriminate|]. destruct Hr as [[_ [_ Hok]] | [_ Hran]].
    + intros cmd' res' Hin' _. rewrite Forall_forall in Hok. exact (Hok _ Hin').
    + destruct Hran as (done & c & r & rest & -> & Hd & Hres & Hp).
      unfold plan in Hp. apply last_or_before in Hp.
      destruct Hp as [(_ & _ & Hl) | (rest' & _ & Hcomp)].
      * intros cmd' res' Hin' Hc'. apply in_app_or in Hin'.
        destruct Hin' as [Hin' | [E | []]].
        -- rewrite Forall_forall in Hd. exact (Hd _ Hin').
        -- injection E as <- <-. subst c. exfalso.
           exact (link_command_no_c t (src0 :: rest0) Hc').
      * exfalso. apply Hnc. apply Hcompile. rewrite Hcomp.
        apply in_app_or in Hin. destruct Hin as [Hin | [E | []]].
        -- apply in_or_app. left. apply in_map_iff. exists (cmd, res). split; [reflexivity|exact Hin].
        -- injection E as <- <-. apply in_or_app. right. left. reflexivity.
Qed.

End LinkReached.

(** the concrete host keeps the promise of [shutil.rmtree] *)
Lemma sim_rmtree_removes_tree : @rmtree_removes_tree Sim.world Sim.host.
Proof.
  intros p q w Hq. cbn. unfold Sim.exists_path, Sim.rmtree. cbn.
  induction (Sim.paths w) as [|a l IH]; cbn; [reflexivity|].
  destruct (under p a) eqn:Ha; cbn; [exact IH|].
  rewrite IH, orb_false_r. apply String.eqb_neq. intros ->. congruence.
Qed.

(** * Part III: the properties of the specification *)



(** C2. In a pipeline, a command that exits with a nonzero status or whose
    executable is missing ends the process with [sys.exit(1)]; when that
    command is the compilation of a source file, the link command of the
    platform is not among the commands that were run.  The exit status of
    the script is then 1. *)
Theorem failed_command_exits_1 {W : Type} `{Host W} :
  (forall (t : target) (s : state W) (new : list entry)
          (cmd : list string) (res : proc_result),
      trace (snd (build_for t s)) = trace s ++ new ->
      In (cmd, res) new ->
      succeeded res = false ->
      fst (build_for t s) = Exited 1
      /\ (forall src, cmd = compile_command t src ->
            ~ In (link_command t (map (obj_path t) (discovered (world (at_discovery t s)))))
                 (map fst new)))
  /\ (forall (w : W) (e : entry),
         In e (trace (snd (run_script Build w))) ->
         succeeded (snd e) = false ->
         fst (run_script Build w) = 1%Z).
Proof.
  split.
  - intros t s new cmd res Htrace Hin Hres.
    destruct (pipeline_spec t s) as (new' & lines & Ht & _ & _ & Hr).
    rewrite Htrace in Ht. apply app_inv_head in Ht. subst new'.
    destruct (discovered (world (at_discovery t s))) as [|src0 rest0] eqn:Hsrcs.
    + destruct Hr as (-> & _). destruct Hin.
    + assert (Hfin : exists b, ran (plan t (src0 :: rest0)) new b
                              /\ (b = false -> fst (build_for t s) = Exited 1)).
      { destruct Hr as [[_ Hran] | [Hex Hran]];
          [exists true | exists false]; (split; [exact Hran|]); [discriminate | auto]. }
      destruct Hfin as (b & Hran & Hb).
      destruct (failed_entry_is_last _ _ _ _ _ Hran Hin Hres)
        as (-> & done & rest & -> & Hdone & Hplan).
      split; [apply Hb; reflexivity|].
      intros src -> Hlink. unfold plan in Hplan.
      pose proof (before_the_last _ _ _ _ _ Hplan
                    (fun E => link_is_not_compile t (src0 :: rest0) src (eq_sym E))) as Hincl.
      rewrite map_app in Hlink. cbn [map fst] in Hlink.
      apply Hincl in Hlink. apply in_map_iff in Hlink.
      destruct Hlink as (src' & E & _).
      exact (link_is_not_compile t (src0 :: rest0) src' (eq_sym E)).
  - intros w e Hin Hres. unfold run_script in *.
    destruct (orderly_main Build (initial w)) as (new & Ht & Hr).
    destruct (main Build (initial w)) as [r s']. cbn [fst snd] in *.
    cbn in Ht. subst new.
    destruct Hr as [[_ Hok] | [-> _]]; [|reflexivity].
    rewrite Forall_forall in Hok. specialize (Hok _ Hin).
    unfold ok_entry in Hok. congruence.
Qed.

Lemma failed_command_exits_1_witness :
  fst (build_for MacOS (initial broken_tree)) = Exited 1
  /\ ~ In (link_command MacOS
             (map (obj_path MacOS)
                  (discovered (world (at_discovery MacOS (initial broken_tree))))))
          (map fst (trace (snd (build_for MacOS (initial broken_tree)))))
  /\ fst (run_script Build broken_tree) = 1%Z.
Proof.
  assert (Hin : In (compile_command MacOS "src/bad.cpp",
                    CalledProcessError 1 "" "error: expected expression")
                   (trace (snd (build_for MacOS (initial broken_tree)))))
    by (vm_compute; right; left; reflexivity).
  destruct (proj1 (@failed_command_exits_1 Sim.world Sim.host)
              MacOS (initial broken_tree)
              (trace (snd (build_for MacOS (initial broken_tree))))
              (compile_command MacOS "src/bad.cpp")
              (CalledProcessError 1 "" "error: expected expression")
              eq_refl Hin eq_refl) as [Hexit Hnolink].
  split; [exact Hexit|]. split; [exact (Hnolink "src/bad.cpp"%string eq_refl)|].
  apply (proj2 (@failed_command_exits_1 Sim.world Sim.host) broken_tree
           (compile_command MacOS "src/bad.cpp",
            CalledProcessError 1 "" "error: expected expression")).
  - vm_compute. right. left. reflexivity.
  - reflexivity.
Defined.

(** C3 as stated fails where two discovered files share their basename:
    every command succeeds, two files are compiled, and one object file
    comes out of it.  It also fails on the tree without source files, where
    no compilation fails and nothing is linked. *)
Lemma twin_sources_share_one_object_file :
  NoDup (discovered (world (at_discovery MacOS (initial twin_tree))))
  /\ fst (build_macos (initial twin_tree)) = Returned tt
  /\ Forall (fun e : entry => succeeded (snd e) = true)
            (trace (snd (build_macos (initial twin_tree))))
  /\ compiled_objects (trace (snd (build_macos (initial twin_tree))))
     = ["build/macos/util.cpp.o"; "build/macos/util.cpp.o"]%string
  /\ ~ one_object_file_per_source_file MacOS
        (discovered (world (at_discovery MacOS (initial twin_tree))))
  /\ Sim.paths (world (snd (build_macos (initial twin_tree))))
     = ["src"; "src/app/util.cpp"; "src/lib/util.cpp"; "build"; "build/macos";
        "build/macos/util.cpp.o"; "build/macos/main"]%string
  /\ trace (snd (run_script Build empty_tree)) = [].
Proof.
  split; [|split; [|split; [|split; [|split; [|split]]]]].
  - vm_compute. repeat constructor; cbn; intuition discriminate.
  - vm_compute. reflexivity.
  - vm_compute. repeat constructor.
  - vm_compute. reflexivity.
  - vm_compute. intros Hnd. inversion Hnd as [|? ? Hnotin _]; subst.
    apply Hnotin. left. reflexivity.
  - vm_compute. reflexivity.
  - vm_compute. reflexivity.
Qed.

(** C3, as amended.  When a pipeline discovers at least one file and every
    command it runs succeeds, it runs one compile command for each discovered
    [.cpp] or [.c] file, in order, each writing the object file
    [<build dir>/<basename>.o], and then one link command writing
    [<build dir>/main] ([main.exe] for Windows).  The object files are
    pairwise distinct, one per source file, exactly when the basenames of
    the source files are. *)
Theorem one_compile_per_source_file {W : Type} `{Host W}
        (t : target) (s : state W) (new : list entry) :
  trace (snd (build_for t s)) = trace s ++ new ->
  Forall ok_entry new ->
  discovered (world (at_discovery t s)) <> [] ->
  map fst new =
    map (compile_command t) (filter recognised (discovered (world (at_discovery t s))))
      ++ [link_command t (map (obj_path t) (discovered (world (at_discovery t s))))]
  /\ (forall src, exists args,
         compile_command t src =
           args ++ ["-c"; src; "-o";
                    (build_dir_of t ++ "/" ++ os_path.basename src ++ ".o")%string])
  /\ (forall objs, exists args,
         link_command t objs =
           args ++ ["-o";
                    (build_dir_of t ++ "/"
                       ++ match t with Windows => "main.exe" | _ => "main" end)%string])
  /\ (one_object_file_per_source_file t (discovered (world (at_discovery t s)))
      <-> NoDup (map os_path.basename
                     (filter recognised (discovered (world (at_discovery t s)))))).
Proof.
  intros Htrace Hok Hne.
  destruct (pipeline_spec t s) as (new' & lines & Ht & _ & _ & Hr).
  rewrite Htrace in Ht. apply app_inv_head in Ht. subst new'.
  destruct (discovered (world (at_discovery t s))) as [|src0 rest0] eqn:Hsrcs;
    [congruence|].
  split; [|split; [|split]].
  - destruct Hr as [[_ [Hm _]] | [_ Hran]]; [exact Hm|].
    destruct Hran as (done & cmd & res & rest & -> & _ & Hres & _).
    apply Forall_app in Hok. destruct Hok as [_ Hlast].
    inversion Hlast as [|? ? Hbad _]; subst. unfold ok_entry in Hbad. cbn in Hbad.
    congruence.
  - intros src. unfold compile_command.
    destruct (Py.endswith src ".cpp"); eexists; rewrite !app_assoc; reflexivity.
  - intros objs. unfold link_command. exists ([cxx_of t] ++ objs ++ link_flags t).
    rewrite <- !app_assoc. destruct t; reflexivity.
  - unfold one_object_file_per_source_file.
    split; apply NoDup_map_transfer; intros x y E; apply (obj_path_eq_iff t); exact E.
Qed.

Lemma one_compile_per_source_file_witness :
  map fst (trace (snd (build_for Windows (initial a_cpp_b_c_tree)))) =
    [ compile_command Windows "src/a.cpp"; compile_command Windows "src/b.c";
      link_command Windows ["build/windows/a.cpp.o"; "build/windows/b.c.o"]%string ].
Proof.
  destruct (one_compile_per_source_file Windows (initial a_cpp_b_c_tree)
              (trace (snd (build_for Windows (initial a_cpp_b_c_tree)))) eq_refl)
    as [Hcommands _].
  - vm_compute. repeat constructor.
  - vm_compute. discriminate.
  - exact Hcommands.
Defined.

(** C4. A pipeline that discovers no source file prints a warning, runs no
    command and returns.  When none of the three pipelines discovers a file,
    the build command prints the three warnings, runs no compiler and no
    linker, changes the world only through its [os.makedirs] calls, and the
    exit status is 0. *)
Theorem no_sources_is_only_a_warning {W : Type} `{Host W} :
  (forall (t : target) (s : state W),
      discovered (world (at_discovery t s)) = [] ->
      build_for t s =
        (Returned tt,
         mkState (os_makedirs (build_dir_of t) (world s))
                 (stdout s ++ [banner t; "No source files found in src."%string])
                 (trace s)))
  /\ (forall (w : W),
         let w0 := os_chdir (script_dir w) w in
         let w1 := os_makedirs MACOS_BUILD_DIR (os_makedirs BUILD_DIR w0) in
         let w2 := os_makedirs WINDOWS_BUILD_DIR w1 in
         let w3 := os_makedirs LINUX_BUILD_DIR w2 in
         discovered w1 = [] -> discovered w2 = [] -> discovered w3 = [] ->
         run_script Build w =
           (0%Z,
            mkState w3
              [ ("Working directory: " ++ os_getcwd w0)%string;
                "--- Starting full project build ---"%string;
                banner MacOS; "No source files found in src."%string;
                banner Windows; "No source files found in src."%string;
                banner Linux; "No source files found in src."%string;
                (nl ++ "--- All builds completed! ---")%string;
                "Executables can be found in: build/"%string ]
              [])).
Proof.
  assert (Hone : forall (t : target) (s : state W),
             discovered (world (at_discovery t s)) = [] ->
             build_for t s =
               (Returned tt,
                mkState (os_makedirs (build_dir_of t) (world s))
                        (stdout s ++ [banner t; "No source files found in src."%string])
                        (trace s))).
  { intros t s Hnone. rewrite build_for_unfold, Hnone.
    unfold print, at_discovery. cbn [world stdout trace].
    rewrite <- app_assoc. reflexivity. }
  split; [exact Hone|].
  intros w w0 w1 w2 w3 H1 H2 H3.
  unfold run_script, main, build_all, ensure_dir, bind, observe, effect, print, initial.
  cbn [world stdout trace].
  change build_macos with (build_for MacOS).
  change build_windows with (build_for Windows).
  change build_linux with (build_for Linux).
  rewrite (Hone MacOS) by exact H1. rewrite (Hone Windows) by exact H2.
  rewrite (Hone Linux) by exact H3. reflexivity.
Qed.

Lemma no_sources_is_only_a_warning_witness :
  fst (run_script Build empty_tree) = 0%Z
  /\ trace (snd (run_script Build empty_tree)) = []
  /\ Sim.paths (world (snd (run_script Build empty_tree)))
     = ["src"; "build"; "build/macos"; "build/windows"; "build/linux"]%string.
Proof.
  rewrite (proj2 (@no_sources_is_only_a_warning Sim.world Sim.host) empty_tree
             eq_refl eq_refl eq_refl).
  cbn [fst snd trace world]. repeat split.
Defined.

(** C5. [clean_all] removes the whole tree of [BUILD_DIR] when it exists;
    when it does not exist, [clean_all] only prints and leaves the world
    untouched; in both cases it returns without an error, and running it a
    second time changes nothing more. *)
Theorem clean_all_removes_and_is_idempotent {W : Type} `{Host W} (s : state W) :
  rmtree_removes_tree ->
  (os_path_exists BUILD_DIR (world s) = true ->
     clean_all s =
       (Returned tt,
        mkState (shutil_rmtree BUILD_DIR (world s))
                (stdout s ++ ["--- Cleaning all build artifacts ---"%string;
                              "Removed directory: build"%string;
                              "--- All cleaned! ---"%string])
                (trace s))
     /\ forall q, under BUILD_DIR q = true ->
                  os_path_exists q (world (snd (clean_all s))) = false)
  /\ (os_path_exists BUILD_DIR (world s) = false ->
        clean_all s =
          (Returned tt,
           mkState (world s)
                   (stdout s ++ ["--- Cleaning all build artifacts ---"%string;
                                 "Build directory not found: build"%string;
                                 "--- All cleaned! ---"%string])
                   (trace s)))
  /\ fst (clean_all s) = Returned tt
  /\ world (snd (clean_all (snd (clean_all s)))) = world (snd (clean_all s)).
Proof.
  intros Hrm.
  assert (Hpresent : os_path_exists BUILD_DIR (world s) = true ->
            clean_all s =
              (Returned tt,
               mkState (shutil_rmtree BUILD_DIR (world s))
                       (stdout s ++ ["--- Cleaning all build artifacts ---"%string;
                                     "Removed directory: build"%string;
                                     "--- All cleaned! ---"%string])
                       (trace s))).
  { intros Hex. unfold clean_all, bind, observe, effect, print. cbn [world stdout trace].
    rewrite Hex. cbn [world stdout trace]. rewrite <- !app_assoc. reflexivity. }
  assert (Habsent : forall s0 : state W, os_path_exists BUILD_DIR (world s0) = false ->
            clean_all s0 =
              (Returned tt,
               mkState (world s0)
                       (stdout s0 ++ ["--- Cleaning all build artifacts ---"%string;
                                      "Build directory not found: build"%string;
                                      "--- All cleaned! ---"%string])
                       (trace s0))).
  { intros s0 Hex. unfold clean_all, bind, observe, effect, print.
    cbn [world stdout trace]. rewrite Hex. cbn [world stdout trace].
    rewrite <- !app_assoc. reflexivity. }
  assert (Hgone : os_path_exists BUILD_DIR (shutil_rmtree BUILD_DIR (world s)) = false)
    by (apply Hrm; reflexivity).
  split; [|split; [|split]].
  - intros Hex. split; [exact (Hpresent Hex)|].
    intros q Hq. rewrite (Hpresent Hex). cbn [snd world]. apply Hrm. exact Hq.
  - apply Habsent.
  - destruct (os_path_exists BUILD_DIR (world s)) eqn:Hex.
    + rewrite (Hpresent eq_refl). reflexivity.
    + rewrite (Habsent s Hex). reflexivity.
  - destruct (os_path_exists BUILD_DIR (world s)) eqn:Hex.
    + rewrite (Hpresent eq_refl). cbn [snd world].
      rewrite Habsent by exact Hgone. reflexivity.
    + rewrite (Habsent s Hex). cbn [snd world].
      rewrite Habsent by exact Hex. reflexivity.
Qed.

Lemma clean_all_removes_and_is_idempotent_witness :
  Sim.paths (world (snd (clean_all (initial built_tree))))
  = ["src"; "src/a.cpp"; "builder.txt"]%string
  /\ fst (clean_all (initial built_tree)) = Returned tt
  /\ world (snd (clean_all (snd (clean_all (initial built_tree)))))
     = world (snd (clean_all (initial built_tree))).
Proof.
  destruct (clean_all_removes_and_is_idempotent (initial built_tree)
              sim_rmtree_removes_tree) as (Hpresent & _ & Hret & Hidem).
  destruct (Hpresent eq_refl) as [Hrun _].
  split; [rewrite Hrun; reflexivity|]. split; [exact Hret | exact Hidem].
Defined.

(** C6. Where [glob] matches its patterns as posixpath does, in every run
    of a pipeline the object files passed to the link command are exactly
    the object files written by the compile commands that succeeded in that
    run, in the same order, none missing and none extra: a command of the
    run that is not a compile command is the link command over these object
    files, which are the object files of the discovered files.  A pipeline
    that discovered a file and in which no compile command failed runs that
    link command, after one compile command for each discovered file. *)
Theorem link_list_is_the_compiled_list {W : Type} `{Host W}
        (t : target) (s : state W) (new : list entry) :
  trace (snd (build_for t s)) = trace s ++ new ->
  glob_matches_its_pattern (world (at_discovery t s)) ->
  (forall cmd res, In (cmd, res) new -> ~ In "-c"%string cmd ->
      cmd = link_command t (compiled_objects new)
      /\ compiled_objects new
         = map (fun src => os_path.join (build_dir_of t) (os_path.basename src ++ ".o"))
               (discovered (world (at_discovery t s))))
  /\ (discovered (world (at_discovery t s)) <> [] ->
      (forall cmd res, In (cmd, res) new -> In "-c"%string cmd -> succeeded res = true) ->
      exists done res,
        new = done ++ [(link_command t (compiled_objects new), res)]
        /\ map fst done = map (compile_command t) (discovered (world (at_discovery t s)))
        /\ Forall ok_entry done).
Proof.
  intros Htrace Hglob.
  assert (Hreached :
    discovered (world (at_discovery t s)) <> [] ->
    (forall cmd res, In (cmd, res) new -> In "-c"%string cmd -> succeeded res = true) ->
    exists done res,
      new = done ++ [(link_command t (map (obj_path t)
                                          (discovered (world (at_discovery t s)))), res)]
      /\ map fst done = map (compile_command t) (discovered (world (at_discovery t s)))
      /\ Forall ok_entry done
      /\ compiled_objects new = map (obj_path t) (discovered (world (at_discovery t s)))).
  { intros Hne Hok.
    destruct (link_command_reached t s new Htrace Hne Hok) as (done & res & -> & Hm & Hdone).
    rewrite (filter_all _ _ (glob_contract_recognised _ Hglob)) in Hm.
    exists done, res. repeat split; try assumption.
    unfold compiled_objects. rewrite filter_app, map_app. cbn [filter fst snd].
    rewrite no_c_in_link_command. cbn [andb map]. rewrite app_nil_r.
    exact (compiled_objects_of_compiles t _ done Hm Hdone). }
  assert (Hjoin : map (obj_path t) (discovered (world (at_discovery t s)))
                  = map (fun src => os_path.join (build_dir_of t) (os_path.basename src ++ ".o"))
                        (discovered (world (at_discovery t s)))).
  { apply map_ext. intros src. symmetry. apply join_obj_path. }
  split.
  - intros cmd res Hin Hnc.
    destruct (link_in_record t s new cmd res Htrace Hin Hnc) as [Hne Hok].
    destruct (Hreached Hne Hok) as (done & res' & Hnew & Hm & _ & Hcompiled).
    split; [|rewrite Hcompiled; exact Hjoin].
    rewrite Hcompiled.
    rewrite Hnew in Hin. apply in_app_or in Hin. destruct Hin as [Hin | [E | []]].
    + exfalso. apply Hnc.
      assert (Hc : In cmd (map fst done))
        by (apply in_map_iff; exists (cmd, res); split; [reflexivity | exact Hin]).
      rewrite Hm in Hc. apply in_map_iff in Hc. destruct Hc as (src & <- & _).
      apply compile_command_has_c.
    + injection E as <- _. reflexivity.
  - intros Hne Hok.
    destruct (Hreached Hne Hok) as (done & res & Hnew & Hm & Hdone & Hcompiled).
    exists done, res. rewrite Hcompiled. repeat split; assumption.
Qed.

Lemma link_list_is_the_compiled_list_witness :
  exists done res,
    trace (snd (build_for MacOS (initial a_cpp_b_c_tree)))
    = done ++ [(["clang++"; "build/macos/a.cpp.o"; "build/macos/b.c.o";
                 "-arch"; "arm64"; "-arch"; "x86_64"; "-o"; "build/macos/main"]%string, res)]
    /\ map fst done = [compile_command MacOS "src/a.cpp"; compile_command MacOS "src/b.c"].
Proof.
  destruct (link_list_is_the_compiled_list MacOS (initial a_cpp_b_c_tree)
              (trace (snd (build_for MacOS (initial a_cpp_b_c_tree)))) eq_refl)
    as (_ & Hreached).
  - split; vm_compute; repeat constructor.
  - destruct Hreached as (done & res & Hnew & Hm & _).
    + vm_compute. discriminate.
    + intros cmd res Hin _. vm_compute in Hin.
      repeat (destruct Hin as [Hin | Hin]; [inversion Hin; reflexivity|]). destruct Hin.
    + exists done, res. split; [exact Hnew | exact Hm].
Defined.

(** C7. The link command of each platform is the C++ driver, the object
    files, the flags of the platform and [-o <executable>]: the two [-arch]
    flags for macOS, which every macOS compile command carries as well;
    [-static-libstdc++ -static-libgcc] for Windows; for Linux the common C++
    flags, the ones its [.cpp] compile commands carry.  Every command a
    pipeline runs is such a compile command or this link command, and a
    pipeline in which no compile command failed ran this link command
    last. *)
Theorem link_command_carries_platform_flags {W : Type} `{Host W}
        (t : target) (s : state W) (new : list entry) :
  trace (snd (build_for t s)) = trace s ++ new ->
  let srcs := discovered (world (at_discovery t s)) in
  let arch := match t with
              | MacOS => ["-arch"; "arm64"; "-arch"; "x86_64"]
              | Windows | Linux => []
              end%string in
  let link := [cxx_of t] ++ map (obj_path t) srcs
                ++ match t with
                   | MacOS => ["-arch"; "arm64"; "-arch"; "x86_64"]
                   | Windows => ["-static-libstdc++"; "-static-libgcc"]
                   | Linux => ["-std=c++17"; "-Wall"; "-Wextra"]
                   end%string
                ++ ["-o"%string; executable_of t] in
  (forall cmd res, In (cmd, res) new ->
     (exists src, In src srcs /\ Py.endswith src ".cpp" = true /\
         cmd = [cxx_of t] ++ ["-std=c++17"; "-Wall"; "-Wextra"]%string ++ arch
                 ++ ["-c"%string; src; "-o"%string; obj_path t src])
     \/ (exists src, In src srcs /\ Py.endswith src ".c" = true /\
           cmd = [cc_of t] ++ ["-std=c11"; "-Wall"; "-Wextra"]%string ++ arch
                   ++ ["-c"%string; src; "-o"%string; obj_path t src])
     \/ cmd = link)
  /\ (srcs <> [] ->
      (forall cmd res, In (cmd, res) new -> In "-c"%string cmd -> succeeded res = true) ->
      exists done res, new = done ++ [(link, res)]).
Proof.
  intros Htrace srcs arch link.
  assert (Hlink : link = link_command t (map (obj_path t) srcs))
    by (unfold link, link_command; destruct t; reflexivity).
  split.
  - intros cmd res Hin.
    pose proof (commands_in_plan t s new cmd res Htrace Hin) as Hplan.
    fold srcs in Hplan. unfold plan in Hplan.
    apply in_app_or in Hplan. destruct Hplan as [Hc | [<- | []]].
    + apply in_map_iff in Hc. destruct Hc as (src & <- & Hsrc).
      apply filter_In in Hsrc. destruct Hsrc as [Hsrc Hrec].
      unfold compile_command, recognised in *.
      destruct (Py.endswith src ".cpp") eqn:Hcpp.
      * left. exists src. split; [exact Hsrc|]. split; [exact Hcpp|].
        destruct t; reflexivity.
      * right. left. exists src. cbn in Hrec. split; [exact Hsrc|].
        split; [exact Hrec|]. destruct t; reflexivity.
    + right. right. symmetry. exact Hlink.
  - intros Hne Hok.
    destruct (link_command_reached t s new Htrace Hne Hok) as (done & res & -> & _).
    exists done, res. rewrite Hlink. reflexivity.
Qed.

Lemma link_command_carries_platform_flags_witness :
  exists done res,
    trace (snd (build_for Linux (initial a_cpp_b_c_tree))) =
      done ++ [ (["/opt/homebrew/bin/x86_64-unknown-linux-gnu-g++";
                  "build/linux/a.cpp.o"; "build/linux/b.c.o";
                  "-std=c++17"; "-Wall"; "-Wextra"; "-o"; "build/linux/main"]%string,
                 res) ].
Proof.
  destruct (link_command_carries_platform_flags Linux (initial a_cpp_b_c_tree)
              (trace (snd (build_for Linux (initial a_cpp_b_c_tree)))) eq_refl)
    as [_ Hlast].
  apply Hlast.
  - vm_compute. discriminate.
  - intros cmd res Hin _. vm_compute in Hin.
    repeat (destruct Hin as [Hin | Hin]; [inversion Hin; reflexivity|]). destruct Hin.
Defined.

(** C8. [run_command] returns [True] or ends the process with [sys.exit(1)];
    it never returns a falsy value.  Hence no loop of a pipeline ever takes
    the [return] of its failure branch, and no pipeline ever prints a
    "Failed to compile" message. *)
Theorem run_command_true_or_exit {W : Type} `{Host W} :
  (forall (command : list string) (cwd : option string) (s : state W),
      fst (run_command command cwd s) = Returned true
      \/ fst (run_command command cwd s) = Exited 1)
  /\ (forall (t : target) (srcs objs : list string) (s : state W),
         fst (loop_for t srcs objs s) <> Returned FunctionReturned)
  /\ (forall (t : target) (s : state W),
         exists lines,
           stdout (snd (build_for t s)) = stdout s ++ lines
           /\ Forall (fun line => String.prefix "Failed to compile" line = false) lines).
Proof.
  split; [|split].
  - intros command cwd s.
    destruct (run_command_spec command cwd s) as [lines [_ ->]]. cbn [fst].
    destruct (succeeded _); [left | right]; reflexivity.
  - intros t srcs objs s.
    destruct (loop_spec t srcs objs s) as (new & lines & _ & _ & _ & Hr).
    destruct Hr as [[-> _] | [-> _]]; discriminate.
  - intros t s.
    destruct (pipeline_spec t s) as (new & lines & _ & Ho & Hl & _).
    exists (banner t :: lines). split; [exact Ho|].
    constructor; [destruct t; reflexivity | exact Hl].
Qed.

(** C9. A pipeline that has compiled its files runs, as its link step, the
    C++ driver of the platform, which is not the C compiler; this is so also
    when every discovered file is a [.c] file, each of them compiled by the C
    compiler. *)
Theorem link_step_invokes_cxx_driver {W : Type} `{Host W}
        (t : target) (s : state W) (new : list entry) :
  trace (snd (build_for t s)) = trace s ++ new ->
  discovered (world (at_discovery t s)) <> [] ->
  (forall cmd res, In (cmd, res) new -> In "-c" cmd -> succeeded res = true) ->
  exists done args res,
    new = done ++ [(cxx_of t :: args, res)]
    /\ cxx_of t <> cc_of t
    /\ (Forall (fun src => Py.endswith src ".c" = true)
               (discovered (world (at_discovery t s))) ->
        length done = length (discovered (world (at_discovery t s)))
        /\ Forall (fun e : entry => hd ""%string (fst e) = cc_of t) done).
Proof.
  intros Htrace Hne Hok.
  destruct (link_command_reached t s new Htrace Hne Hok) as (done & res & -> & Hm & _).
  exists done, (map (obj_path t) (discovered (world (at_discovery t s)))
                  ++ link_flags t ++ ["-o"%string; executable_of t]), res.
  split; [reflexivity|]. split; [destruct t; discriminate|].
  intros Hall.
  assert (Hrec : filter recognised (discovered (world (at_discovery t s)))
                 = discovered (world (at_discovery t s))).
  { apply filter_all. eapply Forall_impl; [|exact Hall].
    intros src Hsrc. unfold recognised. rewrite Hsrc. apply orb_true_r. }
  rewrite Hrec in Hm. split.
  - rewrite <- (length_map fst done), Hm. apply length_map.
  - apply Forall_forall. intros e He.
    assert (Hfst : In (fst e) (map fst done)) by (apply in_map; exact He).
    rewrite Hm in Hfst. apply in_map_iff in Hfst. destruct Hfst as (src & <- & Hsrc).
    rewrite Forall_forall in Hall. specialize (Hall src Hsrc).
    unfold compile_command. rewrite (endswith_c_not_cpp src Hall). reflexivity.
Qed.

Lemma link_step_invokes_cxx_driver_witness :
  exists done args res,
    trace (snd (build_for MacOS (initial only_c_tree)))
    = done ++ [("clang++"%string :: args, res)]
    /\ length done = 2
    /\ Forall (fun e : entry => hd ""%string (fst e) = "clang"%string) done.
Proof.
  destruct (link_step_invokes_cxx_driver MacOS (initial only_c_tree)
              (trace (snd (build_for MacOS (initial only_c_tree)))) eq_refl)
    as (done & args & res & Htrace & _ & Hc).
  - vm_compute. discriminate.
  - intros cmd res Hin _. vm_compute in Hin.
    repeat (destruct Hin as [Hin | Hin]; [inversion Hin; reflexivity|]). destruct Hin.
  - exists done, args, res. split; [exact Htrace|]. apply Hc.
    vm_compute. repeat constructor.
Defined.

(** C10. [get_source_files] returns the [.cpp] matches followed by the [.c]
    matches.  So, when no match of [*.cpp] is taken for a C file and no match
    of [*.c] for a C++ file, a pipeline runs, in this order: the C++
    compilations of the [.cpp] matches, the C compilations of the [.c]
    matches, the link command.  A pipeline that discovered a file and
    returned ran all of them, each with success; otherwise it ran them up to
    the first that failed and exited with status 1; with nothing discovered
    it runs nothing. *)
Theorem cpp_files_are_compiled_before_c_files {W : Type} `{Host W}
        (t : target) (s : state W) (new : list entry) :
  trace (snd (build_for t s)) = trace s ++ new ->
  Forall (fun f => Py.endswith f ".cpp" = true \/ Py.endswith f ".c" = false)
         (cpp_matches (world (at_discovery t s))) ->
  Forall (fun f => Py.endswith f ".cpp" = false) (c_matches (world (at_discovery t s))) ->
  let commands :=
    map (fun src => [cxx_of t] ++ COMMON_CXX_FLAGS ++ compile_arch_flags t
                      ++ ["-c"%string; src; "-o"%string; obj_path t src])
        (filter (fun f => Py.endswith f ".cpp") (cpp_matches (world (at_discovery t s))))
    ++ map (fun src => [cc_of t] ++ COMMON_C_FLAGS ++ compile_arch_flags t
                         ++ ["-c"%string; src; "-o"%string; obj_path t src])
           (filter (fun f => Py.endswith f ".c") (c_matches (world (at_discovery t s))))
    ++ [link_command t (map (obj_path t) (discovered (world (at_discovery t s))))] in
  get_source_files SRC_DIR (at_discovery t s)
  = (Returned (glob_glob "src/**/*.cpp" (world (at_discovery t s))
               ++ glob_glob "src/**/*.c" (world (at_discovery t s))),
     at_discovery t s)
  /\ (discovered (world (at_discovery t s)) = [] -> new = [])
  /\ (discovered (world (at_discovery t s)) <> [] ->
      (fst (build_for t s) = Returned tt
       /\ map fst new = commands /\ Forall ok_entry new)
      \/ (fst (build_for t s) = Exited 1
          /\ exists done cmd res rest,
              new = done ++ [(cmd, res)]
              /\ commands = map fst done ++ cmd :: rest
              /\ Forall ok_entry done
              /\ succeeded res = false)).
Proof.
  intros Htrace Hcpp Hc commands. split; [reflexivity|].
  destruct (pipeline_spec t s) as (new' & lines & Ht & _ & _ & Hr).
  rewrite Htrace in Ht. apply app_inv_head in Ht. subst new'.
  assert (Hplan : plan t (discovered (world (at_discovery t s))) = commands).
  { subst commands. unfold plan. unfold discovered at 1.
    rewrite filter_app, map_app, <- app_assoc.
    rewrite Forall_forall in Hcpp, Hc.
    rewrite (filter_ext_in recognised (fun f => Py.endswith f ".cpp")
               (cpp_matches (world (at_discovery t s)))).
    2:{ intros f Hf. unfold recognised.
        destruct (Hcpp f Hf) as [E | E]; rewrite E; [reflexivity | apply orb_false_r]. }
    rewrite (filter_ext_in recognised (fun f => Py.endswith f ".c")
               (c_matches (world (at_discovery t s)))).
    2:{ intros f Hf. unfold recognised. now rewrite (Hc f Hf). }
    f_equal; [|f_equal]; apply map_ext_in; intros src Hsrc;
      apply filter_In in Hsrc; destruct Hsrc as [Hsrc Hext]; unfold compile_command.
    - now rewrite Hext.
    - now rewrite (Hc src Hsrc). }
  rewrite <- Hplan.
  destruct (discovered (world (at_discovery t s))) as [|src0 rest0] eqn:Hsrcs.
  - destruct Hr as (-> & _). split; [reflexivity | congruence].
  - split; [discriminate|]. intros _.
    destruct Hr as [[Hret [Hm Hok]] | [Hex Hran]].
    + left. repeat split; assumption.
    + right. split; [exact Hex|].
      destruct Hran as (done & cmd & res & rest & -> & Hd & Hres & Hp).
      exists done, cmd, res, rest. repeat split; assumption.
Qed.

Lemma cpp_files_are_compiled_before_c_files_witness :
  map fst (trace (snd (build_for MacOS (initial a_cpp_b_c_tree)))) =
    [ ["clang++"; "-std=c++17"; "-Wall"; "-Wextra"; "-arch"; "arm64"; "-arch"; "x86_64";
       "-c"; "src/a.cpp"; "-o"; "build/macos/a.cpp.o"];
      ["clang"; "-std=c11"; "-Wall"; "-Wextra"; "-arch"; "arm64"; "-arch"; "x86_64";
       "-c"; "src/b.c"; "-o"; "build/macos/b.c.o"];
      ["clang++"; "build/macos/a.cpp.o"; "build/macos/b.c.o";
       "-arch"; "arm64"; "-arch"; "x86_64"; "-o"; "build/macos/main"] ]%string.
Proof.
  destruct (cpp_files_are_compiled_before_c_files MacOS (initial a_cpp_b_c_tree)
              (trace (snd (build_for MacOS (initial a_cpp_b_c_tree)))) eq_refl)
    as (_ & _ & Hrun).
  - vm_compute. repeat constructor.
  - vm_compute. repeat constructor.
  - destruct Hrun as [(_ & Hcommands & _) | (Hexit & _)].
    + vm_compute. discriminate.
    + exact Hcommands.
    + vm_compute in Hexit. discriminate Hexit.
Defined.

(** * Part IV: further properties of the script *)

(** ** Properties kept along a run *)

Section TrackingFacts.

Context {W : Type} `{Host W}.

Variable P : list entry -> list string -> Prop.
Hypothesis P_monoidal : monoidal P.

Lemma tracks_ret {A : Type} (a : A) : tracks P (ret (W := W) a).
Proof.
  intros s. exists [], []. cbn. rewrite !app_nil_r. repeat split. apply P_monoidal.
Qed.

Lemma tracks_bind {A B : Type} (m : M W A) (k : A -> M W B) :
  tracks P m -> (forall a, tracks P (k a)) -> tracks P (bind m k).
Proof.
  intros Hm Hk s. unfold bind.
  destruct (Hm s) as (new1 & lines1 & Ht1 & Ho1 & HP1).
  destruct (m s) as [[a | code] s1]; cbn [fst snd] in *.
  - destruct (Hk a s1) as (new2 & lines2 & Ht2 & Ho2 & HP2).
    exists (new1 ++ new2), (lines1 ++ lines2).
    rewrite Ht2, Ho2, Ht1, Ho1, !app_assoc. repeat split.
    apply P_monoidal; assumption.
  - exists new1, lines1. repeat split; assumption.
Qed.

Lemma tracks_print (line : string) : P [] [line] -> tracks P (print (W := W) line).
Proof.
  intros Hline s. exists [], [line]. cbn. rewrite app_nil_r. repeat split. exact Hline.
Qed.

Lemma tracks_effect (f : W -> W) : tracks P (effect f).
Proof.
  intros s. exists [], []. cbn. rewrite !app_nil_r. repeat split. apply P_monoidal.
Qed.

Lemma tracks_observe {A : Type} (f : W -> A) : tracks P (observe f).
Proof.
  intros s. exists [], []. cbn. rewrite !app_nil_r. repeat split. apply P_monoidal.
Qed.

Lemma tracks_run_command (command : list string) (cwd : option string) :
  (forall res, P [(command, res)] (announce command :: report command res)) ->
  tracks P (run_command command cwd).
Proof.
  intros Hrun s. rewrite run_command_log. cbn [snd trace stdout].
  eexists _, _. repeat split. apply Hrun.
Qed.

Lemma tracks_get_source_files (base_dir : string) :
  tracks P (get_source_files (W := W) base_dir).
Proof.
  unfold get_source_files.
  apply tracks_bind; [apply tracks_observe | intros cpp_files].
  apply tracks_bind; [apply tracks_observe | intros c_files].
  apply tracks_ret.
Qed.

Ltac track_compile IH Hline Hrun :=
  apply tracks_bind;
  [ apply tracks_run_command; intros res; apply Hrun;
    first [ left; reflexivity | right; left; reflexivity ]
  | intros ok; destruct ok; cbn [negb];
    [ apply IH
    | apply tracks_bind;
      [ apply tracks_print; apply Hline; constructor | intros _; apply tracks_ret ] ] ].

Lemma tracks_loop (t : target) :
  (forall line, loop_line line -> P [] [line]) ->
  holds_of_commands P t ->
  forall srcs objs, tracks P (loop_for (W := W) t srcs objs).
Proof.
  intros Hline Hrun srcs.
  destruct t; induction srcs as [|src rest IH]; intros objs;
    cbn [loop_for build_macos_loop build_windows_loop build_linux_loop] in *;
    try apply tracks_ret;
    (destruct (Py.endswith src ".cpp");
     [ track_compile IH Hline Hrun
     | destruct (Py.endswith src ".c");
       [ track_compile IH Hline Hrun
       | apply tracks_bind;
         [ apply tracks_print; apply Hline; constructor | intros _; apply IH ] ] ]).
Qed.

Lemma tracks_build_for (t : target) :
  (forall line, pipeline_line t line -> P [] [line]) ->
  holds_of_commands P t ->
  tracks P (build_for (W := W) t).
Proof.
  intros Hline Hrun.
  assert (Hloop : forall srcs objs, tracks P (loop_for (W := W) t srcs objs)).
  { apply tracks_loop; [|exact Hrun]. intros line Hl. apply Hline. constructor. exact Hl. }
  destruct t; cbn [build_for loop_for] in *;
    [ unfold build_macos | unfold build_windows | unfold build_linux ];
    (apply tracks_bind; [apply tracks_print; apply Hline; apply line_banner | intros _]);
    (apply tracks_bind; [apply tracks_effect | intros _]);
    (apply tracks_bind; [apply tracks_get_source_files | intros source_files]);
    (destruct source_files as [|src rest];
     [ apply tracks_print; apply Hline; apply line_no_sources | ]);
    (apply tracks_bind; [apply Hloop | intros r]);
    (destruct r as [object_files | ]; [ | apply tracks_ret ]);
    cbv zeta;
    (apply tracks_bind;
     [ apply tracks_run_command; intros res; apply Hrun; left; reflexivity
     | intros ok; destruct ok;
       [ apply tracks_print; apply Hline; apply line_success | apply tracks_ret ] ]).
Qed.

Lemma tracks_build_all :
  (forall line, build_line line -> P [] [line]) ->
  (forall t, holds_of_commands P t) ->
  tracks P (build_all (W := W)).
Proof.
  intros Hline Hrun.
  assert (Hpipe : forall t, tracks P (build_for (W := W) t)).
  { intros t. apply tracks_build_for; [|apply Hrun].
    intros line Hl. apply Hline. exact (line_of_pipeline t line Hl). }
  unfold build_all.
  apply tracks_bind; [apply tracks_print; apply Hline; constructor | intros _].
  apply tracks_bind; [apply tracks_effect | intros _].
  apply tracks_bind; [exact (Hpipe MacOS) | intros _].
  apply tracks_bind; [exact (Hpipe Windows) | intros _].
  apply tracks_bind; [exact (Hpipe Linux) | intros _].
  apply tracks_bind; [apply tracks_print; apply Hline; apply line_completed | intros _].
  apply tracks_print. apply Hline. apply line_executables.
Qed.

Lemma tracks_clean_all :
  (forall line, script_line line -> P [] [line]) ->
  tracks P (clean_all (W := W)).
Proof.
  intros Hline. unfold clean_all.
  apply tracks_bind; [apply tracks_print; apply Hline; apply line_cleaning | intros _].
  apply tracks_bind; [apply tracks_observe | intros present].
  apply tracks_bind; [|intros _; apply tracks_print; apply Hline; apply line_cleaned].
  destruct present.
  - apply tracks_bind; [apply tracks_effect | intros _].
    apply tracks_print. apply Hline. apply line_removed.
  - apply tracks_print. apply Hline. apply line_not_found.
Qed.

Lemma tracks_main (command : cli_command) :
  (forall line, script_line line -> P [] [line]) ->
  (forall t, holds_of_commands P t) ->
  tracks P (main (W := W) command).
Proof.
  intros Hline Hrun. unfold main.
  apply tracks_bind; [apply tracks_observe | intros dir].
  apply tracks_bind; [apply tracks_effect | intros _].
  apply tracks_bind; [apply tracks_observe | intros cwd].
  apply tracks_bind; [apply tracks_print; apply Hline; apply line_working_directory | intros _].
  destruct command.
  - apply tracks_build_all; [|exact Hrun].
    intros line Hl. apply Hline. constructor. exact Hl.
  - apply tracks_clean_all. exact Hline.
Qed.

End TrackingFacts.

(** ** Announcements *)

Lemma announced_monoidal : monoidal announced.
Proof.
  split; [reflexivity|]. unfold announced. intros a b c d Hab Hcd.
  now rewrite filter_app, map_app, Hab, Hcd.
Qed.

Lemma announce_is_announcement (command : list string) :
  is_announcement (announce command) = true.
Proof.
  unfold is_announcement, announce. cbn. destruct (Py.join " " command); reflexivity.
Qed.

Lemma report_has_no_announcement (command : list string) (res : proc_result) :
  filter is_announcement (report command res) = [].
Proof.
  destruct res as [out err | code out err | ]; cbn; [|reflexivity|reflexivity].
  destruct (Py.truthy out), (Py.truthy err); reflexivity.
Qed.

Lemma script_line_is_no_announcement (line : string) :
  script_line line -> is_announcement line = false.
Proof.
  intros Hl. destruct Hl as [line Hb | | | | | cwd]; try reflexivity.
  destruct Hb as [t line Hp | | | ]; try reflexivity.
  destruct Hp as [line Hloop | | | ]; [destruct Hloop | | | ];
    try reflexivity; destruct t; reflexivity.
Qed.

Lemma run_script_fst {W : Type} `{Host W} (command : cli_command) (w : W) :
  fst (run_script command w) = exit_code (fst (main command (initial w))).
Proof. unfold run_script. destruct (main command (initial w)). reflexivity. Qed.

Lemma run_script_snd {W : Type} `{Host W} (command : cli_command) (w : W) :
  snd (run_script command w) = snd (main command (initial w)).
Proof. unfold run_script. destruct (main command (initial w)). reflexivity. Qed.

(** X1. In every run of the script, for either command, the [print] calls
    whose text starts with "Executing: " are the announcements of the
    commands handed to [subprocess.run], one for each and in the same
    order: no command is run without being announced, and no other [print]
    call of the script produces a text of that form. *)
Theorem every_command_is_announced {W : Type} `{Host W}
        (command : cli_command) (w : W) :
  filter is_announcement (stdout (snd (run_script command w)))
  = map (fun e => announce (fst e)) (trace (snd (run_script command w))).
Proof.
  rewrite run_script_snd.
  destruct (tracks_main announced announced_monoidal command) with (s := initial w)
    as (new & lines & Ht & Ho & HP).
  - intros line Hl. unfold announced. cbn.
    now rewrite (script_line_is_no_announcement line Hl).
  - intros t cmd res _. unfold announced. cbn [filter map fst].
    now rewrite announce_is_announcement, report_has_no_announcement.
  - rewrite Ht, Ho. exact HP.
Qed.

(** ** Stopping at the first failure *)

Section FailFast.

Context {W : Type} `{Host W}.

Lemma fail_fast_quiet {A : Type} (m : M W A) :
  (forall s, exists a, fst (m s) = Returned a) ->
  (forall s, trace (snd (m s)) = trace s) ->
  fail_fast m.
Proof.
  intros Hr Ht s. exists []. rewrite app_nil_r. split; [apply Ht|].
  left. split; [apply Hr | constructor].
Qed.

Lemma fail_fast_print (line : string) : fail_fast (W := W) (print line).
Proof. apply fail_fast_quiet; intros s; [exists tt|]; reflexivity. Qed.

Lemma fail_fast_effect (f : W -> W) : fail_fast (effect f).
Proof. apply fail_fast_quiet; intros s; [exists tt|]; reflexivity. Qed.

Lemma fail_fast_observe {A : Type} (f : W -> A) : fail_fast (observe f).
Proof. apply fail_fast_quiet; intros s; [eexists|]; reflexivity. Qed.

Lemma fail_fast_bind {A B : Type} (m : M W A) (k : A -> M W B) :
  fail_fast m -> (forall a, fail_fast (k a)) -> fail_fast (bind m k).
Proof.
  intros Hm Hk s. unfold bind.
  destruct (Hm s) as (new1 & Ht1 & Hr1).
  destruct (m s) as [r s1]. cbn [fst snd] in *.
  destruct Hr1 as [[[a ->] Hok1] | [-> (done & e & -> & Hd & Hf)]].
  - destruct (Hk a s1) as (new2 & Ht2 & Hr2).
    exists (new1 ++ new2). rewrite Ht2, Ht1, app_assoc. split; [reflexivity|].
    destruct Hr2 as [[Hret Hok2] | [Hex (done & e & -> & Hd & Hf)]].
    + left. split; [exact Hret | apply Forall_app; split; assumption].
    + right. split; [exact Hex|]. exists (new1 ++ done), e.
      rewrite app_assoc. repeat split; [apply Forall_app; split; assumption | exact Hf].
  - exists (done ++ [e]). split; [exact Ht1|]. right. split; [reflexivity|].
    exists done, e. repeat split; assumption.
Qed.

Lemma fail_fast_build_for (t : target) : fail_fast (W := W) (build_for t).
Proof.
  intros s. destruct (pipeline_spec t s) as (new & lines & Ht & _ & _ & Hr).
  exists new. split; [exact Ht|].
  destruct (discovered (world (at_discovery t s))).
  - destruct Hr as (-> & _ & Hret & _). left. split; [exists tt; exact Hret | constructor].
  - destruct Hr as [[Hret [_ Hok]] | [Hex Hran]].
    + left. split; [exists tt; exact Hret | exact Hok].
    + right. split; [exact Hex|].
      destruct Hran as (done & cmd & res & rest & -> & Hd & Hres & _).
      exists done, (cmd, res). repeat split; assumption.
Qed.

Lemma fail_fast_build_all : fail_fast (W := W) build_all.
Proof.
  unfold build_all.
  apply fail_fast_bind; [apply fail_fast_print | intros _].
  apply fail_fast_bind; [apply fail_fast_effect | intros _].
  apply fail_fast_bind; [exact (fail_fast_build_for MacOS) | intros _].
  apply fail_fast_bind; [exact (fail_fast_build_for Windows) | intros _].
  apply fail_fast_bind; [exact (fail_fast_build_for Linux) | intros _].
  apply fail_fast_bind; [apply fail_fast_print | intros _].
  apply fail_fast_print.
Qed.

Lemma fail_fast_clean_all : fail_fast (W := W) clean_all.
Proof.
  unfold clean_all.
  apply fail_fast_bind; [apply fail_fast_print | intros _].
  apply fail_fast_bind; [apply fail_fast_observe | intros present].
  apply fail_fast_bind; [|intros _; apply fail_fast_print].
  destruct present; [|apply fail_fast_print].
  apply fail_fast_bind; [apply fail_fast_effect | intros _; apply fail_fast_print].
Qed.

Lemma fail_fast_main (command : cli_command) : fail_fast (W := W) (main command).
Proof.
  unfold main.
  apply fail_fast_bind; [apply fail_fast_observe | intros dir].
  apply fail_fast_bind; [apply fail_fast_effect | intros _].
  apply fail_fast_bind; [apply fail_fast_observe | intros cwd].
  apply fail_fast_bind; [apply fail_fast_print | intros _].
  destruct command; [apply fail_fast_build_all | apply fail_fast_clean_all].
Qed.

End FailFast.

(** X2. The script started with one of the two commands it accepts, [build]
    or [clean], in which every call of [subprocess.run] completes or raises
    one of the two exceptions [run_command] catches, ends with exit status 0
    or 1.  It is 0 exactly when every command the script ran succeeded; it
    is 1 exactly when the last command it ran failed (nonzero status or
    missing executable), every command before that one having succeeded:
    after a failure, on any platform, nothing more is run.  (A missing or
    unknown argument, which [argparse] answers with status 2, and an
    exception that no handler of the script catches are not runs of
    [run_script].) *)
Theorem exit_status_tells_the_first_failure {W : Type} `{Host W}
        (command : cli_command) (w : W) :
  (fst (run_script command w) = 0%Z
   /\ Forall ok_entry (trace (snd (run_script command w))))
  \/ (fst (run_script command w) = 1%Z
      /\ exists done e,
          trace (snd (run_script command w)) = done ++ [e]
          /\ Forall ok_entry done
          /\ succeeded (snd e) = false).
Proof.
  rewrite run_script_fst, run_script_snd.
  destruct (fail_fast_main command (initial w)) as (new & Ht & Hr).
  cbn [initial trace app] in Ht. rewrite Ht.
  destruct Hr as [[[a ->] Hok] | [-> Hlast]]; [left | right]; split;
    try reflexivity; assumption.
Qed.

(** X3. Whatever [glob] returns and whichever commands fail, the commands a
    pipeline runs are an initial segment of its plan: the compilations of
    the discovered files that end in [.cpp] or [.c], in the order of
    discovery, then the link command.  Every command but the last one run
    succeeded, and nothing is run when no file is discovered. *)
Theorem pipeline_runs_an_initial_segment_of_its_plan {W : Type} `{Host W}
        (t : target) (s : state W) :
  exists new k,
    trace (snd (build_for t s)) = trace s ++ new
    /\ map fst new = firstn k (plan t (discovered (world (at_discovery t s))))
    /\ Forall ok_entry (removelast new)
    /\ (fst (build_for t s) = Returned tt ->
        Forall ok_entry new
        /\ (new = [] <-> discovered (world (at_discovery t s)) = [])).
Proof.
  destruct (pipeline_spec t s) as (new & lines & Ht & _ & _ & Hr).
  destruct (discovered (world (at_discovery t s))) as [|src0 rest0].
  - destruct Hr as (-> & _). exists [], 0. repeat split; try constructor; trivial.
  - destruct Hr as [[Hret Hran] | [Hex Hran]];
      destruct (ran_firstn _ _ _ Hran) as [k Hk]; exists new, k;
      (split; [exact Ht|]); (split; [exact Hk|]).
    + destruct Hran as [Hm Hok]. split.
      * clear - Hok. induction Hok as [|e l He Hl IH]; [constructor|].
        destruct l; [constructor|]. cbn. constructor; assumption.
      * intros _. split; [exact Hok|]. split; [|discriminate].
        intros ->. unfold plan in Hm. apply (f_equal (@length _)) in Hm.
        rewrite length_app in Hm. cbn in Hm. lia.
    + destruct Hran as (done & cmd & res & rest & -> & Hd & _).
      rewrite removelast_last. split; [exact Hd|]. rewrite Hex. discriminate.
Qed.

(** ** The platforms, one after the other *)

Section Sequence.

Context {W : Type} `{Host W}.

Lemma tracks_in_sequence {A B : Type} (P Q : list entry -> list string -> Prop)
      (m : M W A) (k : A -> M W B) :
  Q [] [] -> tracks P m -> (forall a, tracks Q (k a)) ->
  tracks (in_sequence P Q) (bind m k).
Proof.
  intros HQ Hm Hk s. unfold bind.
  destruct (Hm s) as (new1 & lines1 & Ht1 & Ho1 & HP1).
  destruct (m s) as [[a | code] s1]; cbn [fst snd] in *.
  - destruct (Hk a s1) as (new2 & lines2 & Ht2 & Ho2 & HQ2).
    exists (new1 ++ new2), (lines1 ++ lines2).
    rewrite Ht2, Ho2, Ht1, Ho1, !app_assoc. repeat split.
    exists new1, lines1, new2, lines2. repeat split; assumption.
  - exists new1, lines1. repeat split; try assumption.
    exists new1, lines1, [], []. rewrite !app_nil_r. repeat split; assumption.
Qed.

Lemma only_toolchain_monoidal (t : target) : monoidal (only_toolchain t).
Proof.
  split; [constructor|]. unfold only_toolchain. intros a b c d Ha Hc.
  apply Forall_app. split; assumption.
Qed.

Lemma only_toolchain_build_for (t : target) :
  tracks (only_toolchain t) (build_for (W := W) t).
Proof.
  apply tracks_build_for.
  - apply only_toolchain_monoidal.
  - intros line _. constructor.
  - intros cmd res Hcmd. unfold only_toolchain. constructor; [exact Hcmd | constructor].
Qed.

Lemma build_all_from (s : state W) :
  build_all s =
    (build_macos ;; build_windows ;; build_linux ;;
     print completed_line ;; print "Executables can be found in: build/")
      (mkState (os_makedirs BUILD_DIR (world s))
               (stdout s ++ ["--- Starting full project build ---"%string])
               (trace s)).
Proof. reflexivity. Qed.

End Sequence.

(** X4. [build_all] runs its commands platform by platform, in the order
    macOS, Windows, Linux: the commands recorded are some commands that start
    with [clang++] or [clang], followed by some that start with the MinGW
    [g++] or [gcc], followed by some that start with the Linux cross [g++]
    or [gcc].  The script launches no other executable. *)
Theorem build_all_runs_the_platforms_in_order {W : Type} `{Host W} (s : state W) :
  exists macos windows linux,
    trace (snd (build_all s)) = trace s ++ macos ++ windows ++ linux
    /\ Forall (fun e : entry => hd ""%string (fst e) = MACOS_CXX
                               \/ hd ""%string (fst e) = MACOS_C) macos
    /\ Forall (fun e : entry => hd ""%string (fst e) = WINDOWS_CXX
                               \/ hd ""%string (fst e) = WINDOWS_C) windows
    /\ Forall (fun e : entry => hd ""%string (fst e) = LINUX_CXX
                               \/ hd ""%string (fst e) = LINUX_C) linux.
Proof.
  rewrite build_all_from.
  assert (Htail : tracks (W := W) (only_toolchain Linux)
                    (build_linux ;; print completed_line
                       ;; print "Executables can be found in: build/")).
  { apply tracks_bind; [apply only_toolchain_monoidal
                       | exact (only_toolchain_build_for Linux) | intros _].
    apply tracks_bind; [apply only_toolchain_monoidal | | intros _];
      apply tracks_print; constructor. }
  pose proof (tracks_in_sequence (only_toolchain MacOS)
                (in_sequence (only_toolchain Windows) (only_toolchain Linux))
                (build_for MacOS)
                (fun _ => build_windows ;; build_linux ;; print completed_line
                            ;; print "Executables can be found in: build/")) as Hall.
  match goal with |- context [snd (_ ?s1)] => destruct (Hall) with (s := s1)
      as (new & lines & Ht & _ & (m & lm & rest & lrest & -> & _ & Hm & Hrest)) end.
  - exists [], [], [], []. repeat split; constructor.
  - exact (only_toolchain_build_for MacOS).
  - intros _. apply (tracks_in_sequence (only_toolchain Windows) (only_toolchain Linux)
                       (build_for Windows)).
    + constructor.
    + exact (only_toolchain_build_for Windows).
    + intros _. exact Htail.
  - destruct Hrest as (w & lw & l & ll & -> & _ & Hw & Hl).
    exists m, w, l. split; [exact Ht|].
    unfold only_toolchain, runs_toolchain, toolchain in Hm, Hw, Hl.
    repeat split; (eapply Forall_impl; [|eassumption]); intros e He; cbn in He;
      intuition auto.
Qed.

(** ** The closing lines *)

Section ClosingLines.

Context {W : Type} `{Host W}.

Lemma never_prints_monoidal (line : string) : monoidal (never_prints line).
Proof.
  split; [constructor|]. unfold never_prints. intros a b c d Hb Hd.
  apply Forall_app. split; assumption.
Qed.

Lemma report_is_not_a_script_line (command : list string) (res : proc_result)
      (line : string) :
  build_line line -> Forall (fun l => l <> line) (announce command :: report command res).
Proof.
  intros Hl.
  assert (Hfirst : forall l' : string,
             (exists rest, l' = ("Executing: " ++ rest)%string
                           \/ l' = String "E" (String "R" rest)
                           \/ l' = String "S" (String "T" rest)) ->
             l' <> line).
  { intros l' [rest Hl'] E. subst line.
    destruct Hl as [t line Hp | | | ].
    - destruct Hp as [line Hloop | | | ]; [destruct Hloop | | | ];
        try (destruct t); cbv in Hl'; destruct Hl' as [E | [E | E]]; discriminate E.
    - cbv in Hl'. destruct Hl' as [E | [E | E]]; discriminate E.
    - cbv in Hl'. destruct Hl' as [E | [E | E]]; discriminate E.
    - cbv in Hl'. destruct Hl' as [E | [E | E]]; discriminate E. }
  constructor.
  - apply Hfirst. eexists. left. reflexivity.
  - destruct res as [out err | code out err | ]; cbn.
    + destruct (Py.truthy out), (Py.truthy err); repeat constructor;
        apply Hfirst; eexists; right; right; reflexivity.
    + repeat constructor; apply Hfirst; eexists;
        first [right; left; reflexivity | right; right; reflexivity].
    + repeat constructor; apply Hfirst; eexists; right; left; reflexivity.
Qed.

Lemma pipeline_never_prints_completed_line (t : target) :
  tracks (never_prints completed_line) (build_for (W := W) t).
Proof.
  apply tracks_build_for.
  - apply never_prints_monoidal.
  - intros line Hl. repeat constructor.
    destruct Hl as [line Hloop | | | ]; [destruct Hloop | | | ];
      try (destruct t); intros E; cbv in E; discriminate E.
  - intros cmd res _. apply report_is_not_a_script_line. apply line_completed.
Qed.

Lemma pipelines_never_print_completed_line :
  tracks (never_prints completed_line) (pipelines_in_order (W := W)).
Proof.
  unfold pipelines_in_order.
  apply tracks_bind; [apply never_prints_monoidal | | intros _].
  { apply tracks_print. repeat constructor. discriminate. }
  apply tracks_bind; [apply never_prints_monoidal | apply tracks_effect;
                      apply never_prints_monoidal | intros _].
  apply tracks_bind; [apply never_prints_monoidal
                     | exact (pipeline_never_prints_completed_line MacOS) | intros _].
  apply tracks_bind; [apply never_prints_monoidal
                     | exact (pipeline_never_prints_completed_line Windows) | intros _].
  exact (pipeline_never_prints_completed_line Linux).
Qed.

Lemma fail_fast_pipelines_in_order : fail_fast (W := W) pipelines_in_order.
Proof.
  unfold pipelines_in_order.
  apply fail_fast_bind; [apply fail_fast_print | intros _].
  apply fail_fast_bind; [apply fail_fast_effect | intros _].
  apply fail_fast_bind; [exact (fail_fast_build_for MacOS) | intros _].
  apply fail_fast_bind; [exact (fail_fast_build_for Windows) | intros _].
  exact (fail_fast_build_for Linux).
Qed.

Lemma build_all_split (s : state W) :
  build_all s =
    (pipelines_in_order ;; print completed_line
       ;; print "Executables can be found in: build/") s.
Proof.
  unfold build_all, pipelines_in_order, bind, print, ensure_dir, effect.
  cbn [world stdout trace].
  destruct (build_macos _) as [[[] | c1] s1]; [|reflexivity].
  destruct (build_windows _) as [[[] | c2] s2]; [|reflexivity].
  destruct (build_linux _) as [[[] | c3] s3]; reflexivity.
Qed.

Lemma main_build_from (w : W) :
  main Build (initial w) =
    build_all (mkState (os_chdir (script_dir w) w)
                       [("Working directory: " ++ os_getcwd (os_chdir (script_dir w) w))%string]
                       []).
Proof. reflexivity. Qed.

End ClosingLines.

(** X5. The build command prints "--- All builds completed! ---" exactly when
    its exit status is 0: the closing line is never printed after a failed
    command, and it is always printed otherwise, also when no platform found
    a source file. *)
Theorem completed_line_means_exit_status_0 {W : Type} `{Host W} (w : W) :
  In completed_line (stdout (snd (run_script Build w)))
  <-> fst (run_script Build w) = 0%Z.
Proof.
  rewrite run_script_fst, run_script_snd, main_build_from, build_all_split.
  match goal with |- context [snd (_ ?s0)] => set (start := s0) end.
  destruct (pipelines_never_print_completed_line start) as (new & lines & _ & Ho & Hn).
  destruct (fail_fast_pipelines_in_order start) as (new' & _ & Hr).
  unfold bind at 1 3. destruct (pipelines_in_order start) as [[[] | code] s1];
    cbn [fst snd] in *.
  - unfold bind, print. cbn [fst snd stdout exit_code]. split; [reflexivity|].
    intros _. apply in_or_app. left. apply in_or_app. right. left. reflexivity.
  - destruct Hr as [[[a Ha] _] | [Hcode _]]; [discriminate Ha|].
    injection Hcode as ->. cbn [exit_code]. split; [|discriminate].
    rewrite Ho. subst start. cbn [stdout]. intros Hin. exfalso.
    destruct Hin as [E | Hin]; [discriminate E|].
    unfold never_prints in Hn. rewrite Forall_forall in Hn. exact (Hn _ Hin eq_refl).
Qed.

Section SuccessLine.

Context {W : Type} `{Host W}.

Lemma loop_never_prints_success_line (t : target) (srcs objs : list string) :
  tracks (never_prints (success_line t)) (loop_for (W := W) t srcs objs).
Proof.
  apply tracks_loop.
  - apply never_prints_monoidal.
  - intros line Hl. repeat constructor.
    destruct Hl; destruct t; intros E; cbv in E; discriminate E.
  - intros cmd res _. apply report_is_not_a_script_line.
    apply (line_of_pipeline t). apply line_success.
Qed.

Lemma succeeded_completed (res : proc_result) :
  succeeded res = true -> exists out err, res = Completed out err.
Proof. destruct res; try discriminate. intros _. eexists _, _. reflexivity. Qed.

End SuccessLine.

(** X6. A pipeline prints its "Successfully built ... executable" line
    exactly when it discovered at least one file and returned, and then the
    last command it ran is its link command, which completed with status 0.
    The line is never printed after a failed command or when no source file
    was found. *)
Theorem success_line_means_the_link_succeeded {W : Type} `{Host W}
        (t : target) (s : state W) :
  exists new lines,
    trace (snd (build_for t s)) = trace s ++ new
    /\ stdout (snd (build_for t s)) = stdout s ++ lines
    /\ (In (success_line t) lines
        <-> fst (build_for t s) = Returned tt
            /\ discovered (world (at_discovery t s)) <> [])
    /\ (In (success_line t) lines ->
        exists done out err,
          new = done ++ [(link_command t
                            (map (obj_path t) (discovered (world (at_discovery t s)))),
                          Completed out err)]).
Proof.
  rewrite build_for_unfold.
  assert (Hbanner : banner t <> success_line t)
    by (intros E; destruct t; cbv in E; discriminate E).
  destruct (discovered (world (at_discovery t s))) as [|src rest] eqn:Hsrcs.
  - exists [], [banner t; no_sources_line].
    unfold print, at_discovery. cbn [fst snd world stdout trace].
    rewrite app_nil_r, <- app_assoc.
    assert (Hnot : ~ In (success_line t) [banner t; no_sources_line]).
    { intros [E | [E | []]]; [exact (Hbanner E)|]. destruct t; cbv in E; discriminate E. }
    split; [reflexivity|]. split; [reflexivity|].
    split; [split; [intros Hin; destruct (Hnot Hin) | intros [_ Hne]; congruence]|].
    intros Hin. destruct (Hnot Hin).
  - unfold bind.
    destruct (loop_never_prints_success_line t (src :: rest) [] (at_discovery t s))
      as (new1 & lines1 & Ht1 & Ho1 & Hn1).
    destruct (loop_spec t (src :: rest) [] (at_discovery t s))
      as (new1' & _ & _ & _ & _ & Hr).
    destruct (loop_for t (src :: rest) [] (at_discovery t s)) as [r s1].
    cbn [fst snd at_discovery trace stdout] in Ht1, Ho1, Hr.
    unfold never_prints in Hn1. rewrite Forall_forall in Hn1.
    destruct Hr as [[-> _] | [-> _]].
    + change (@nil string ++ map (obj_path t) (src :: rest))
        with (map (obj_path t) (src :: rest)).
      cbv beta iota. rewrite link_command_filter, run_command_log.
      set (link := link_command t (map (obj_path t) (src :: rest))).
      set (res := fst (subprocess_run link None (world s1))).
      pose proof (report_is_not_a_script_line link res (success_line t)
                    (line_of_pipeline t _ (line_success t))) as Hrep.
      rewrite Forall_forall in Hrep.
      destruct (succeeded res) eqn:Hok.
      * unfold print. cbn [fst snd trace stdout].
        destruct (succeeded_completed _ Hok) as (out & err & Hres).
        exists (new1 ++ [(link, res)]),
               (banner t :: lines1 ++ (announce link :: report link res) ++ [success_line t]).
        rewrite Ht1, Ho1, <- !app_assoc.
        split; [reflexivity|]. split; [reflexivity|]. split.
        -- split; [intros _; split; [reflexivity | discriminate]|].
           intros _. right. apply in_or_app. right. apply in_or_app. right.
           left. reflexivity.
        -- intros _. exists new1, out, err. rewrite <- Hres. reflexivity.
      * cbn [fst snd trace stdout].
        exists (new1 ++ [(link, res)]), (banner t :: lines1 ++ announce link :: report link res).
        rewrite Ht1, Ho1, <- !app_assoc.
        split; [reflexivity|]. split; [reflexivity|].
        assert (Hnot : ~ In (success_line t)
                         (banner t :: lines1 ++ announce link :: report link res)).
        { intros [E | Hin]; [exact (Hbanner E)|].
          apply in_app_or in Hin. destruct Hin as [Hin | Hin].
          - exact (Hn1 _ Hin eq_refl).
          - exact (Hrep _ Hin eq_refl). }
        split; [split; [intros Hin; destruct (Hnot Hin) | intros [E _]; discriminate E]|].
        intros Hin. destruct (Hnot Hin).
    + cbn [fst snd]. exists new1, (banner t :: lines1).
      rewrite Ht1, Ho1, <- app_assoc.
      split; [reflexivity|]. split; [reflexivity|].
      assert (Hnot : ~ In (success_line t) (banner t :: lines1)).
      { intros [E | Hin]; [exact (Hbanner E) | exact (Hn1 _ Hin eq_refl)]. }
      split; [split; [intros Hin; destruct (Hnot Hin) | intros [E _]; discriminate E]|].
      intros Hin. destruct (Hnot Hin).
Qed.

(** X7. The object file of a source file lies directly in the build
    directory of the platform, whatever directory the source file is in and
    whatever its name: the path computed by the loop is the build directory,
    a slash, and a name without a slash (the basename of the source file
    followed by [.o]), and the basename of that path is that name.  So the
    directory made by [ensure_dir] is the only one an object file is written
    to. *)
Theorem object_files_lie_directly_in_the_build_directory (t : target) (src_file : string) :
  os_path.join (build_dir_of t) (os_path.basename src_file ++ ".o")
  = (build_dir_of t ++ "/" ++ (os_path.basename src_file ++ ".o"))%string
  /\ has_sep (os_path.basename src_file ++ ".o") = false
  /\ os_path.basename (os_path.join (build_dir_of t) (os_path.basename src_file ++ ".o"))
     = (os_path.basename src_file ++ ".o")%string.
Proof.
  pose proof (object_name_has_no_sep src_file) as Hname.
  assert (Hjoin : os_path.join (build_dir_of t) (os_path.basename src_file ++ ".o")
                  = (build_dir_of t ++ "/" ++ (os_path.basename src_file ++ ".o"))%string)
    by (rewrite join_obj_path; reflexivity).
  split; [exact Hjoin|]. split; [exact Hname|].
  rewrite Hjoin. apply basename_after_sep. exact Hname.
Qed.

(** X8. The three pipelines never write to the same file: the object files
    and the executables of two different platforms are different paths, for
    any two source files; and within or across platforms an object file is
    never an executable, whatever the source file is called. *)
Theorem platforms_never_share_an_output (t1 t2 : target) (a b : string) :
  t1 <> t2 ->
  os_path.join (build_dir_of t1) (os_path.basename a ++ ".o")
    <> os_path.join (build_dir_of t2) (os_path.basename b ++ ".o")
  /\ executable_of t1 <> executable_of t2
  /\ os_path.join (build_dir_of t1) (os_path.basename a ++ ".o") <> executable_of t1
  /\ os_path.join (build_dir_of t1) (os_path.basename a ++ ".o") <> executable_of t2.
Proof.
  intros Hne. rewrite !join_obj_path.
  assert (Hexe : forall t t', obj_path t a <> executable_of t').
  { intros t t' E. pose proof (obj_path_last_char t a) as Hlast. rewrite E in Hlast.
    destruct t'; discriminate Hlast. }
  split; [|split; [|split; apply Hexe]].
  - unfold obj_path. destruct t1, t2; try congruence; intros E; cbv in E; discriminate E.
  - destruct t1, t2; try congruence; discriminate.
Qed.

Lemma platforms_never_share_an_output_witness :
  os_path.join MACOS_BUILD_DIR (os_path.basename "src/main.cpp" ++ ".o")
  <> os_path.join LINUX_BUILD_DIR (os_path.basename "src/main.cpp" ++ ".o").
Proof.
  apply (platforms_never_share_an_output MacOS Linux "src/main.cpp" "src/main.cpp").
  discriminate.
Defined.

(** X9. The clean command runs no subprocess and its exit status is 0.  When
    [shutil.rmtree] does what it promises, [BUILD_DIR] does not exist once the
    command is over, whether or not it existed before; and the world is
    changed by [os.chdir] and by at most one [shutil.rmtree] of [BUILD_DIR],
    nothing else. *)
Theorem clean_command_runs_nothing_and_exits_0 {W : Type} `{Host W} (w : W) :
  rmtree_removes_tree ->
  fst (run_script Clean w) = 0%Z
  /\ trace (snd (run_script Clean w)) = []
  /\ os_path_exists BUILD_DIR (world (snd (run_script Clean w))) = false
  /\ (world (snd (run_script Clean w)) = os_chdir (script_dir w) w
      \/ world (snd (run_script Clean w))
         = shutil_rmtree BUILD_DIR (os_chdir (script_dir w) w)).
Proof.
  intros Hrm. unfold run_script, main, clean_all, bind, observe, effect, print, initial.
  cbn [world stdout trace].
  destruct (os_path_exists BUILD_DIR (os_chdir (script_dir w) w)) eqn:Hex;
    cbn [fst snd world stdout trace exit_code].
  - repeat split; [apply Hrm; reflexivity | right; reflexivity].
  - repeat split; [exact Hex | left; reflexivity].
Qed.

Lemma clean_command_runs_nothing_and_exits_0_witness :
  fst (run_script Clean built_tree) = 0%Z
  /\ trace (snd (run_script Clean built_tree)) = []
  /\ Sim.exists_path "build" (world (snd (run_script Clean built_tree))) = false.
Proof.
  destruct (clean_command_runs_nothing_and_exits_0 built_tree sim_rmtree_removes_tree)
    as (Hcode & Htrace & Hgone & _).
  split; [exact Hcode|]. split; [exact Htrace | exact Hgone].
Defined.

(** X10. In a pipeline that returns, the discovered files that end in neither
    [.cpp] nor [.c] are reported one by one: the [print] calls whose text
    starts with "Skipping unknown file type: " are exactly one warning for
    each such file, naming it, in the order of discovery; files that are
    compiled get none. *)
Theorem every_skipped_file_gets_one_warning {W : Type} `{Host W}
        (t : target) (s : state W) :
  fst (build_for t s) = Returned tt ->
  exists lines,
    stdout (snd (build_for t s)) = stdout s ++ lines
    /\ filter is_skipping_line lines
       = map (fun src => ("Skipping unknown file type: " ++ src)%string)
             (filter (fun src => negb (Py.endswith src ".cpp" || Py.endswith src ".c"))
                     (discovered (world (at_discovery t s)))).
Proof.
  rewrite build_for_unfold.
  assert (Hbanner : is_skipping_line (banner t) = false) by (destruct t; reflexivity).
  assert (Hsuccess : is_skipping_line (success_line t) = false) by (destruct t; reflexivity).
  destruct (discovered (world (at_discovery t s))) as [|src rest] eqn:Hsrcs.
  - intros _. exists [banner t; no_sources_line].
    unfold print, at_discovery. cbn [fst snd world stdout trace filter map].
    rewrite <- app_assoc, Hbanner. split; reflexivity.
  - unfold bind.
    destruct (loop_warnings t (src :: rest) [] (at_discovery t s)) as (lines1 & Ho1 & Hw).
    destruct (loop_spec t (src :: rest) [] (at_discovery t s))
      as (new1 & _ & _ & _ & _ & Hr).
    destruct (loop_for t (src :: rest) [] (at_discovery t s)) as [r s1].
    cbn [fst snd at_discovery stdout] in Ho1, Hw, Hr.
    destruct Hr as [[-> _] | [-> _]]; [|discriminate].
    change (@nil string ++ map (obj_path t) (src :: rest))
      with (map (obj_path t) (src :: rest)).
    cbv beta iota. rewrite link_command_filter, run_command_log.
    set (link := link_command t (map (obj_path t) (src :: rest))).
    set (res := fst (subprocess_run link None (world s1))).
    destruct (succeeded res); [|discriminate].
    intros _. unfold print. cbn [fst snd stdout].
    exists (banner t :: lines1 ++ (announce link :: report link res) ++ [success_line t]).
    rewrite Ho1, <- !app_assoc. split; [reflexivity|].
    cbn [filter]. rewrite Hbanner, !filter_app, run_command_prints_no_warning.
    cbn [filter app]. rewrite Hsuccess, app_nil_r.
    apply Hw. discriminate.
Qed.

Lemma every_skipped_file_gets_one_warning_witness :
  exists lines,
    stdout (snd (build_for MacOS (initial a_cpp_b_c_tree))) = lines
    /\ filter is_skipping_line lines = [].
Proof.
  assert (Hret : fst (build_for MacOS (initial a_cpp_b_c_tree)) = Returned tt)
    by (vm_compute; reflexivity).
  destruct (every_skipped_file_gets_one_warning MacOS (initial a_cpp_b_c_tree) Hret)
    as (lines & Ho & Hw).
  exists lines. split; [exact Ho | exact Hw].
Defined.

(** ** The arguments of the commands *)



(** ** The world of the first command *)

Section FirstCommand.

Context {W : Type} `{Host W}.

(** one iteration that compiles [src] *)
Lemma first_compile_step (src : string) (command : list string)
      (continue body : M W loop_end) (s : state W) :
  (forall s', body s' =
     (ok <- run_command command None ;;
      if negb ok then print ("Failed to compile " ++ src) ;; ret FunctionReturned
      else continue) s') ->
  (forall s', exists new, trace (snd (continue s')) = trace s' ++ new) ->
  exists new,
    trace (snd (body s)) = trace s ++ new
    /\ (new = [] -> world (snd (body s)) = world s)
    /\ (forall cmd res rest, new = (cmd, res) :: rest ->
        res = fst (subprocess_run cmd None (world s))).
Proof.
  intros Hbody Hcont. rewrite Hbody. unfold bind. rewrite run_command_log.
  destruct (succeeded _).
  - cbn [negb].
    match goal with |- context [continue ?s1] => destruct (Hcont s1) as (new & Ht) end.
    cbn [trace] in Ht.
    exists ((command, fst (subprocess_run command None (world s))) :: new).
    rewrite Ht, <- app_assoc. split; [reflexivity|]. split; [discriminate|].
    intros cmd res rest E. injection E as <- <- _. reflexivity.
  - cbn [fst snd trace].
    exists [(command, fst (subprocess_run command None (world s)))].
    split; [reflexivity|]. split; [discriminate|].
    intros cmd res rest E. injection E as <- <- _. reflexivity.
Qed.

Lemma loop_first_command (t : target) (srcs : list string) :
  forall objs s, exists new,
    trace (snd (loop_for t srcs objs s)) = trace s ++ new
    /\ (new = [] -> world (snd (loop_for t srcs objs s)) = world s)
    /\ (forall cmd res rest, new = (cmd, res) :: rest ->
        res = fst (subprocess_run cmd None (world s))).
Proof.
  induction srcs as [|src rest IH]; intros objs s.
  - exists []. destruct t; cbn; rewrite app_nil_r; repeat split; discriminate.
  - destruct t;
      cbn [loop_for build_macos_loop build_windows_loop build_linux_loop] in IH |- *;
      (destruct (Py.endswith src ".cpp");
       [ | destruct (Py.endswith src ".c") ];
       [ eapply (first_compile_step src);
         [ intros; reflexivity
         | intros s'; match goal with |- exists n, trace (snd (_ _ ?o s')) = _ =>
             destruct (IH o s') as (n & Hn & _); exists n; exact Hn end ]
       | eapply (first_compile_step src);
         [ intros; reflexivity
         | intros s'; match goal with |- exists n, trace (snd (_ _ ?o s')) = _ =>
             destruct (IH o s') as (n & Hn & _); exists n; exact Hn end ]
       | unfold bind, print;
         match goal with |- context [snd (_ ?objs1 ?s1)] =>
           destruct (IH objs1 s1) as (new & Ht & Hnil & Hfirst) end;
         exists new; cbn [trace world] in Ht, Hnil, Hfirst;
         split; [exact Ht | split; [exact Hnil | exact Hfirst]] ]).
Qed.

End FirstCommand.

(** X12. Nothing changes the world between [ensure_dir] and the first
    command of a pipeline: whatever is discovered or skipped before it, the
    first command a pipeline runs, be it a compile command or the link
    command, is started in the world that [os.makedirs] of the platform's
    build directory returned. *)
Theorem first_command_follows_ensure_dir {W : Type} `{Host W}
        (t : target) (s : state W)
        (cmd : list string) (res : proc_result) (rest : list entry) :
  trace (snd (build_for t s)) = trace s ++ (cmd, res) :: rest ->
  res = fst (subprocess_run cmd None (os_makedirs (build_dir_of t) (world s))).
Proof.
  rewrite build_for_unfold.
  destruct (discovered (world (at_discovery t s))) as [|src0 rest0] eqn:Hsrcs.
  - unfold print, at_discovery. cbn [snd trace]. intros E.
    rewrite <- (app_nil_r (trace s)) in E at 1. apply app_inv_head in E. discriminate E.
  - unfold bind.
    destruct (loop_first_command t (src0 :: rest0) [] (at_discovery t s))
      as (new1 & Ht1 & Hnil & Hfirst).
    destruct (loop_spec t (src0 :: rest0) [] (at_discovery t s))
      as (new1' & _ & _ & _ & _ & Hr).
    destruct (loop_for t (src0 :: rest0) [] (at_discovery t s)) as [r s1].
    cbn [fst snd at_discovery trace world] in Ht1, Hnil, Hfirst, Hr.
    destruct Hr as [[-> _] | [-> _]].
    + change (@nil string ++ map (obj_path t) (src0 :: rest0))
        with (map (obj_path t) (src0 :: rest0)).
      cbv beta iota. rewrite link_command_filter, run_command_log.
      set (link := link_command t (map (obj_path t) (src0 :: rest0))).
      assert (Hfinal :
                trace s1 ++ [(link, fst (subprocess_run link None (world s1)))]
                = trace s ++ (cmd, res) :: rest ->
                res = fst (subprocess_run cmd None (os_makedirs (build_dir_of t) (world s)))).
      { intros E. rewrite Ht1, <- app_assoc in E. apply app_inv_head in E.
        destruct new1 as [|[c0 r0] new1].
        - cbn in E. injection E as <- <- _. rewrite (Hnil eq_refl). reflexivity.
        - cbn in E. injection E as <- <- _. exact (Hfirst _ _ _ eq_refl). }
      destruct (succeeded _); [unfold print|]; cbn [fst snd trace]; exact Hfinal.
    + cbn [snd]. intros E. rewrite Ht1 in E. apply app_inv_head in E.
      exact (Hfirst _ _ _ E).
Qed.

Lemma first_command_follows_ensure_dir_witness :
  Completed "" ""
  = fst (Sim.run (compile_command MacOS "src/a.cpp") None
                 (Sim.makedirs "build/macos" a_cpp_b_c_tree)).
Proof.
  assert (Hrun : trace (snd (build_for MacOS (initial a_cpp_b_c_tree)))
                 = trace (initial a_cpp_b_c_tree)
                     ++ (compile_command MacOS "src/a.cpp", Completed "" "")
                     :: skipn 1 (trace (snd (build_for MacOS (initial a_cpp_b_c_tree)))))
    by (vm_compute; reflexivity).
  exact (first_command_follows_ensure_dir MacOS (initial a_cpp_b_c_tree) _ _ _ Hrun).
Defined.

(** ** The further properties at concrete runs *)

Lemma pipeline_runs_an_initial_segment_of_its_plan_witness :
  exists new k,
    trace (snd (build_for Linux (initial broken_tree))) = new
    /\ map fst new = firstn k [ compile_command Linux "src/a.cpp";
                                compile_command Linux "src/bad.cpp";
                                compile_command Linux "src/c.cpp";
                                link_command Linux ["build/linux/a.cpp.o";
                                                    "build/linux/bad.cpp.o";
                                                    "build/linux/c.cpp.o"]%string ]
    /\ Forall ok_entry (removelast new).
Proof.
  destruct (pipeline_runs_an_initial_segment_of_its_plan Linux (initial broken_tree))
    as (new & k & Ht & Hk & Hok & _).
  exists new, k. split; [exact Ht|]. split; [exact Hk | exact Hok].
Defined.

Lemma success_line_means_the_link_succeeded_witness :
  exists done out err,
    trace (snd (build_for Windows (initial a_cpp_b_c_tree)))
    = done ++ [(link_command Windows ["build/windows/a.cpp.o"; "build/windows/b.c.o"]%string,
                Completed out err)].
Proof.
  destruct (success_line_means_the_link_succeeded Windows (initial a_cpp_b_c_tree))
    as (new & lines & Ht & Ho & Hiff & Hlink).
  destruct Hlink as (done & out & err & Hnew).
  - apply Hiff. split; [vm_compute; reflexivity | vm_compute; discriminate].
  - exists done, out, err. rewrite Ht, Hnew. reflexivity.
Defined.
